(** * ember-native-class-codemod: property models, decorator synthesis,
      decorator-import aggregation and the transform entry point.

    A shallow embedding of the TypeScript sources:
    - the base class of the property models          (class AbstractEOProp)
    - the Simple property model                      (class EOSimpleProp)
    - the index of the property models               (makeEOProp)
    - the AST helpers                                (getDecoratorsToImportSpecs,
                                                      parseEmberObjectCallExpression)
    - the transform entry point                      (transformer)
    - transforms/helpers/runtime-data                (interface RuntimeData)

    Objects are records, getters are functions of the record, the classes of
    the property-model family are a tag carried by the instance (so that
    [instanceof] is a test on the tag), exceptions are an explicit completion
    type, and JavaScript objects used as string-keyed maps are [gmap string]. *)

From stdpp Require Import base strings list gmap.
From Stdlib Require Import Ascii String Permutation.

Set Warnings "-register-all".

Open Scope string_scope.
Open Scope list_scope.

(** ** Syntax trees

    The trees come from jscodeshift; only the node kinds and fields that the
    embedded functions read are kept.  [EOExpressionProp] is the union
    [EOProperty | EOMethod] of the members of the object literal passed to
    [extend]. *)

Inductive LiteralValue : Type :=
| LString (s : string)
| LBoolean (b : bool)
| LNumber (raw : string)
| LNull.

Record Identifier : Type := mkIdentifier { name : string }.

Inductive Expression : Type :=
| IdentifierExpression (id : Identifier)
| Literal (value : LiteralValue)
| ArrayExpression (elements : list Expression)
| ObjectExpression (properties : list EOExpressionProp)
| FunctionExpression (params : list string) (body : string)
| CallExpression (callee : Expression) (arguments : list Expression)
| MemberExpression (object : Expression) (property : Identifier)
| SpreadElement (argument : Expression)
with EOExpressionProp : Type :=
| EOProperty (key : Identifier) (value : Expression)
    (computed : option bool) (comments : option (list string))
    (decorators : option (list Expression))
| EOMethod (key : Identifier) (params : list string) (body : string)
    (computed : option bool) (comments : option (list string))
    (decorators : option (list Expression)).

(** A decorator node is represented by the expression it wraps. *)
Abbreviation Decorator := Expression (only parsing).

(** The [type] field of a node. *)
Definition Expression_type (e : Expression) : string :=
  match e with
  | IdentifierExpression _ => "Identifier"
  | Literal _ => "Literal"
  | ArrayExpression _ => "ArrayExpression"
  | ObjectExpression _ => "ObjectExpression"
  | FunctionExpression _ _ => "FunctionExpression"
  | CallExpression _ _ => "CallExpression"
  | MemberExpression _ _ => "MemberExpression"
  | SpreadElement _ => "SpreadElement"
  end.

Definition prop_key (p : EOExpressionProp) : Identifier :=
  match p with
  | EOProperty k _ _ _ _ => k
  | EOMethod k _ _ _ _ _ => k
  end.

(** [comments] of a declaration node: the array the parser attaches to a node
    that has comments; on a node without comments the field is not there
    ([None]) and reads [undefined]. *)
Definition prop_comments (p : EOExpressionProp) : option (list string) :=
  match p with
  | EOProperty _ _ _ c _ => c
  | EOMethod _ _ _ _ c _ => c
  end.

Definition prop_computed (p : EOExpressionProp) : option bool :=
  match p with
  | EOProperty _ _ c _ _ => c
  | EOMethod _ _ _ c _ _ => c
  end.

Definition prop_decorators (p : EOExpressionProp) : option (list Decorator) :=
  match p with
  | EOProperty _ _ _ _ d => d
  | EOMethod _ _ _ _ _ d => d
  end.

(** [rawProp.value]: a property has a value; on a method node, which the type
    parameter of the Simple variant excludes, the field read is [undefined],
    rendered [None]. *)
Definition prop_value (p : EOExpressionProp) : option Expression :=
  match p with
  | EOProperty _ v _ _ _ => Some v
  | EOMethod _ _ _ _ _ _ => None
  end.

(** The [type] of the value of a model: the value's node type for a
    property, the method node's own type for a method. *)
Definition prop_value_type (p : EOExpressionProp) : string :=
  match p with
  | EOProperty _ v _ _ _ => Expression_type v
  | EOMethod _ _ _ _ _ _ => "ObjectMethod"
  end.

(** ** JavaScript helpers *)

(** [a ?? b] *)
Definition nullish {A : Type} (a : option A) (b : A) : A :=
  match a with
  | Some x => x
  | None => b
  end.

(** Truthiness of a [string | undefined]: undefined and the empty string are
    falsy. *)
Definition truthy_string (s : option string) : bool :=
  match s with
  | Some EmptyString => false
  | Some _ => true
  | None => false
  end.

(** [array.includes(x)] on arrays of strings. *)
Definition includes (l : list string) (x : string) : bool :=
  existsb (String.eqb x) l.

(** What a property read on a plain object finds: an own property, a member
    inherited from [Object.prototype], or nothing. *)
Inductive JsProp (A : Type) : Type :=
| OwnProp (a : A)
| InheritedProp (member : string).
Arguments OwnProp {A} a.
Arguments InheritedProp {A} member.

Definition Object_prototype_names : list string :=
  [ "constructor"; "hasOwnProperty"; "isPrototypeOf"; "propertyIsEnumerable";
    "toLocaleString"; "toString"; "valueOf"; "__proto__";
    "__defineGetter__"; "__defineSetter__"; "__lookupGetter__";
    "__lookupSetter__" ].

(** [obj[k]] on a plain object whose own properties are [o]. *)
Definition js_get {A : Type} (o : gmap string A) (k : string)
  : option (JsProp A) :=
  match o !! k with
  | Some a => Some (OwnProp a)
  | None =>
      if includes Object_prototype_names k then Some (InheritedProp k)
      else None
  end.

(** [k in obj]: the key is found on the object or on its prototype. *)
Definition js_in {A : Type} (k : string) (o : gmap string A) : bool :=
  match js_get o k with
  | Some _ => true
  | None => false
  end.

(** ** Runtime data (transforms/helpers/runtime-data) *)

Record RuntimeData : Type := mkRuntimeData {
  type : option string;
  computedProperties : option (list string);
  offProperties : option (gmap string (list LiteralValue));
  overriddenActions : option (list string);
  overriddenProperties : option (list string);
  unobservedProperties : option (gmap string (list LiteralValue))
}.

(** ** Decorator descriptors *)

(** Modelled from the spec: the [DecoratorImportInfo] type of the
    decorator-info module is not among the sources.  The Decorator Descriptor
    of the data model is [{ name, args?, requiresImport?, isMetaDecorator? }];
    the fields the embedded code reads are kept, an optional field that is
    not present on the object being [None]. *)
Record DecoratorImportInfo : Type := mkDecoratorImportInfo {
  decorator_name : string;
  decorator_args : option (list LiteralValue);
  isMetaDecorator : option bool
}.

(** The object literal [{ name: n }]. *)
Definition descriptor (n : string) : DecoratorImportInfo :=
  {| decorator_name := n; decorator_args := None; isMetaDecorator := None |}.

(** Modelled from the spec: [createDecoratorWithArgs] of the decorator-helper
    module is not among the sources.  It renders a descriptor as concrete
    annotation syntax: the call of the decorator's name on its literal
    arguments. *)
Definition createDecoratorWithArgs (decoratorName : string)
  (args : list LiteralValue) : Decorator :=
  CallExpression (IdentifierExpression (mkIdentifier decoratorName))
    (map Literal args).

(** ** AbstractEOProp, the base class of the property models *)

Record EODecoratorArgs : Type := mkEODecoratorArgs {
  args_unobserves : option (JsProp (list LiteralValue));
  args_off : option (JsProp (list LiteralValue))
}.

Record AbstractEOProp : Type := mkAbstractEOProp {
  _prop : EOExpressionProp;
  decorators : list DecoratorImportInfo;
  decoratorArgs : EODecoratorArgs;
  isComputed : option bool;
  isOverridden : option bool;
  runtimeType : option string
}.

(** The field initialisers of the class, before the constructor body runs. *)
Definition AbstractEOProp_init (eoProp : EOExpressionProp) : AbstractEOProp :=
  {| _prop := eoProp;
     decorators := [];
     decoratorArgs := {| args_unobserves := None; args_off := None |};
     isComputed := None;
     isOverridden := None;
     runtimeType := None |}.

(** The assignments of the constructor body, as updates of [this]. *)
Definition push_decorator (d : DecoratorImportInfo) (this : AbstractEOProp)
  : AbstractEOProp :=
  {| _prop := _prop this;
     decorators := decorators this ++ [d];
     decoratorArgs := decoratorArgs this;
     isComputed := isComputed this;
     isOverridden := isOverridden this;
     runtimeType := runtimeType this |}.

Definition set_decoratorArgs (a : EODecoratorArgs) (this : AbstractEOProp)
  : AbstractEOProp :=
  {| _prop := _prop this;
     decorators := decorators this;
     decoratorArgs := a;
     isComputed := isComputed this;
     isOverridden := isOverridden this;
     runtimeType := runtimeType this |}.

Definition set_isComputed (b : option bool) (this : AbstractEOProp)
  : AbstractEOProp :=
  {| _prop := _prop this;
     decorators := decorators this;
     decoratorArgs := decoratorArgs this;
     isComputed := b;
     isOverridden := isOverridden this;
     runtimeType := runtimeType this |}.

Definition set_isOverridden (b : option bool) (this : AbstractEOProp)
  : AbstractEOProp :=
  {| _prop := _prop this;
     decorators := decorators this;
     decoratorArgs := decoratorArgs this;
     isComputed := isComputed this;
     isOverridden := b;
     runtimeType := runtimeType this |}.

Definition set_runtimeType (t : option string) (this : AbstractEOProp)
  : AbstractEOProp :=
  {| _prop := _prop this;
     decorators := decorators this;
     decoratorArgs := decoratorArgs this;
     isComputed := isComputed this;
     isOverridden := isOverridden this;
     runtimeType := t |}.

(** [get key] and [get name] *)
Definition AbstractEOProp_key (this : AbstractEOProp) : Identifier :=
  prop_key (_prop this).

Definition AbstractEOProp_name (this : AbstractEOProp) : string :=
  name (prop_key (_prop this)).

(** [constructor(eoProp, runtimeData)] *)
Definition AbstractEOProp_constructor (eoProp : EOExpressionProp)
  (runtimeData : option RuntimeData) : AbstractEOProp :=
  let this := AbstractEOProp_init eoProp in
  match runtimeData with
  | None => this
  | Some rd =>
      if truthy_string (type rd) then
        let computedProperties := nullish (computedProperties rd) [] in
        let offProperties := nullish (offProperties rd) ∅ in
        let overriddenProperties := nullish (overriddenProperties rd) [] in
        let unobservedProperties := nullish (unobservedProperties rd) ∅ in
        let name := AbstractEOProp_name this in
        let this :=
          if js_in name unobservedProperties then
            let this := push_decorator (descriptor "unobserves") this in
            set_decoratorArgs
              {| args_unobserves := js_get unobservedProperties name;
                 args_off := args_off (decoratorArgs this) |} this
          else this in
        let this :=
          if js_in name offProperties then
            let this := push_decorator (descriptor "off") this in
            set_decoratorArgs
              {| args_unobserves := args_unobserves (decoratorArgs this);
                 args_off := js_get offProperties name |} this
          else this in
        let this :=
          if includes computedProperties name then
            set_isComputed (Some true) this
          else this in
        let this :=
          set_isOverridden (Some (includes overriddenProperties name)) this in
        set_runtimeType (type rd) this
      else this
  end.

Definition AbstractEOProp_comments (this : AbstractEOProp)
  : option (list string) :=
  prop_comments (_prop this).

Definition AbstractEOProp_computed (this : AbstractEOProp) : bool :=
  nullish (prop_computed (_prop this)) false.

Definition hasRuntimeData (this : AbstractEOProp) : bool :=
  truthy_string (runtimeType this).

Definition decoratorNames (this : AbstractEOProp) : list string :=
  map decorator_name (decorators this).

Definition hasDecorators (this : AbstractEOProp) : bool :=
  Nat.ltb 0 (List.length (decorators this)).

Definition hasUnobservesDecorator (this : AbstractEOProp) : bool :=
  includes (decoratorNames this) "unobserves".

Definition hasOffDecorator (this : AbstractEOProp) : bool :=
  includes (decoratorNames this) "off".

Definition hasMetaDecorator (this : AbstractEOProp) : bool :=
  existsb (fun d => nullish (isMetaDecorator d) false) (decorators this).

(** ** The property-model family

    Every concrete class extends [AbstractEOProp]; an instance is its class
    tag together with the state of the base class and the options it was
    built with.  [x instanceof C] is [instanceof x C]. *)

Inductive EOPropClass : Type :=
| EOActionsProp
| EOSimpleProp
| EOComputedFunctionExpressionProp
| EOComputedObjectExpressionProp
| EODecoratedProp
| EOFunctionExpressionProp
| EOMethodProp
| EOClassDecorator.

(** The AST helper module imports the actions and class-decorator classes of
    the eo-prop index under these names. *)
Definition EOActionsObjectProp : EOPropClass := EOActionsProp.
Definition EOClassDecoratorProp : EOPropClass := EOClassDecorator.

Definition EOPropClass_eqb (c d : EOPropClass) : bool :=
  match c, d with
  | EOActionsProp, EOActionsProp
  | EOSimpleProp, EOSimpleProp
  | EOComputedFunctionExpressionProp, EOComputedFunctionExpressionProp
  | EOComputedObjectExpressionProp, EOComputedObjectExpressionProp
  | EODecoratedProp, EODecoratedProp
  | EOFunctionExpressionProp, EOFunctionExpressionProp
  | EOMethodProp, EOMethodProp
  | EOClassDecorator, EOClassDecorator => true
  | _, _ => false
  end.

(** Modelled from the spec: the [Options] type of the options module is not
    among the sources.  The global options carry the boolean that enables
    class-field emission; the classifier hands only [options] to the
    constructors while the base constructor receives the runtime metadata
    record, so the record travels in the options. *)
Record Options : Type := mkOptions {
  classFields : bool;
  runtimeData : option RuntimeData
}.

Record EOProp : Type := mkEOProp {
  class_of : EOPropClass;
  super : AbstractEOProp;
  options : Options
}.

Definition instanceof (x : EOProp) (C : EOPropClass) : bool :=
  EOPropClass_eqb (class_of x) C.

(** [new C(eoProp, options)] *)
Definition new_EOProp (C : EOPropClass) (eoProp : EOExpressionProp)
  (options : Options) : EOProp :=
  {| class_of := C;
     super := AbstractEOProp_constructor eoProp (runtimeData options);
     options := options |}.

(** [this.rawProp]: the declaration the model wraps. *)
Definition rawProp (this : EOProp) : EOExpressionProp := _prop (super this).

(** Modelled from the spec: the [existingDecorators] getter is not among the
    sources.  Existing decorators are the ones already applied on the
    original declaration. *)
Definition existingDecorators (this : EOProp) : option (list Decorator) :=
  prop_decorators (rawProp this).

(** ** Exceptions

    A call either returns a value or throws. *)

Inductive Completion (A : Type) : Type :=
| Return (a : A)
| Throw (error : string).
Arguments Return {A} a.
Arguments Throw {A} error.

#[export] Instance Completion_ret : MRet Completion := @Return.

#[export] Instance Completion_bind : MBind Completion :=
  fun A B f c =>
    match c with
    | Return a => f a
    | Throw e => Throw e
    end.

(** [assert(cond)] of the type utilities: throws when the condition is
    false. *)
Definition assert (cond : bool) : Completion unit :=
  if cond then Return tt else Throw "Assertion Error".

(** ** EOSimpleProp, the Simple property model *)

(** The class member a Simple model builds; [cp_value = None] is [null]. *)
Record ClassProperty : Type := mkClassProperty {
  cp_key : Identifier;
  cp_value : option Expression;
  cp_comments : option (list string);
  cp_computed : bool;
  cp_decorators : list Decorator
}.

(** [protected readonly value = this.rawProp.value] *)
Definition EOSimpleProp_value (this : EOProp) : option Expression :=
  prop_value (rawProp this).

(** [get type()] of the base class, on the Simple variant's value. *)
Definition EOSimpleProp_type (this : EOProp) : string :=
  prop_value_type (rawProp this).

(** The message [logger.info] receives for a skipped descriptor. *)
Definition ignored_message (this : EOProp) (decoratorName : string) : string :=
  "[" +:+ AbstractEOProp_name (super this) +:+ "] Ignored decorator "
      +:+ decoratorName.

(** The loop of [buildDecorators]: the decorators pushed so far and the
    lines logged so far are threaded through the descriptors. *)
Definition buildDecorators_step (this : EOProp)
  (acc : list Decorator * list string) (decorator : DecoratorImportInfo)
  : list Decorator * list string :=
  let decoratorName := decorator_name decorator in
  match decorator_args decorator with
  | Some args => (fst acc ++ [createDecoratorWithArgs decoratorName args],
                  snd acc)
  | None => (fst acc, snd acc ++ [ignored_message this decoratorName])
  end.

(** [buildDecorators()], with the log lines it writes. *)
Definition EOSimpleProp_buildDecorators (this : EOProp)
  : list Decorator * list string :=
  let r := fold_left (buildDecorators_step this) (decorators (super this))
             ([], []) in
  (nullish (existingDecorators this) [] ++ fst r, snd r).

(** What a field handed to a node builder holds: nothing ([undefined]),
    [null], or a value. *)
Inductive JsField (A : Type) : Type :=
| FieldUndefined
| FieldNull
| FieldValue (a : A).
Arguments FieldUndefined {A}.
Arguments FieldNull {A}.
Arguments FieldValue {A} a.

(** A field read off a declaration node.  The node comes from the parser,
    which leaves a field out or fills it: a field that is not there reads
    [undefined]. *)
Definition field_of_node {A : Type} (o : option A) : JsField A :=
  match o with
  | Some a => FieldValue a
  | None => FieldUndefined
  end.

(** [j.classProperty.from({ key, value, comments, computed })] of
    jscodeshift.  The builder checks every field it is handed against the
    definition of the node: [value] is an expression or [null], [comments]
    an array or [null]; it throws on a field that is [undefined].  The
    wording of the library's error is not modelled: one message stands for
    it.  The member the builder makes has no decorator yet. *)
Definition classProperty_from (key : Identifier)
  (value : JsField Expression) (comments : JsField (list string))
  (computed : bool) : Completion ClassProperty :=
  match value, comments with
  | FieldUndefined, _ => Throw "ClassProperty: a field does not match its type"
  | _, FieldUndefined => Throw "ClassProperty: a field does not match its type"
  | _, _ =>
      Return {| cp_key := key;
                cp_value := match value with
                            | FieldValue v => Some v
                            | _ => None
                            end;
                cp_comments := match comments with
                               | FieldValue c => Some c
                               | _ => None
                               end;
                cp_computed := computed;
                cp_decorators := [] |}
  end.

(** [classProp.decorators = ...] *)
Definition set_cp_decorators (ds : list Decorator) (classProp : ClassProperty)
  : ClassProperty :=
  {| cp_key := cp_key classProp;
     cp_value := cp_value classProp;
     cp_comments := cp_comments classProp;
     cp_computed := cp_computed classProp;
     cp_decorators := ds |}.

(** [build()], with the log lines it writes.  The builder runs first: when
    it throws, [buildDecorators] has not run and nothing is logged. *)
Definition EOSimpleProp_build (this : EOProp)
  : Completion (ClassProperty * list string) :=
  classProp ← classProperty_from
                (AbstractEOProp_key (super this))
                (if hasDecorators (super this) then FieldNull
                 else field_of_node (EOSimpleProp_value this))
                (field_of_node (AbstractEOProp_comments (super this)))
                (nullish (prop_computed (rawProp this)) false);
  let r := EOSimpleProp_buildDecorators this in
  Return (set_cp_decorators (fst r) classProp, snd r).

Section SimpleTypeErrors.

(** [makeError] belongs to the part of the base class that is not among the
    sources; it turns a message into the diagnostic of a model. *)
Variable makeError : EOProp -> string -> string.

(** [get typeErrors()] *)
Definition EOSimpleProp_typeErrors (this : EOProp) : list string :=
  let errors := [] in
  let errors :=
    if negb (classFields (options this)) then
      errors ++ [makeError this "need option '--class-fields=true'"]
    else errors in
  let errors :=
    if (String.eqb (EOSimpleProp_type this) "ObjectExpression"
        || String.eqb (EOSimpleProp_type this) "ArrayExpression")
       && negb (String.eqb (AbstractEOProp_name (super this)) "queryParams")
    then
      errors ++ [makeError this
        "value is of type object. For more details: eslint-plugin-ember/avoid-leaking-state-in-ember-objects"]
    else errors in
  errors.

End SimpleTypeErrors.

(** ** makeEOProp, the classifier of the property-model index *)

Section Classifier.

(** The map of the decorators already imported is only passed along. *)
Variable DecoratorImportInfoMap : Type.

(** The type predicates of the AST module and the call-expression
    disambiguator are not among the sources. *)
Variable isEOPropertyWithCallExpression : EOExpressionProp -> bool.
Variable isEOMethod : EOExpressionProp -> bool.
Variable isEOPropertyWithFunctionExpression : EOExpressionProp -> bool.
Variable isEOPropertyForClassDecorator : EOExpressionProp -> bool.
Variable isEOPropertyForActionsObject : EOExpressionProp -> bool.
Variable isEOPropertySimple : EOExpressionProp -> bool.
Variable makeEOCallExpressionProp :
  EOExpressionProp -> DecoratorImportInfoMap -> Options -> Completion EOProp.

Definition makeEOProp (eoProp : EOExpressionProp)
  (existingDecoratorImportInfos : DecoratorImportInfoMap)
  (options : Options) : Completion EOProp :=
  if isEOPropertyWithCallExpression eoProp then
    makeEOCallExpressionProp eoProp existingDecoratorImportInfos options
  else if isEOMethod eoProp then
    Return (new_EOProp EOMethodProp eoProp options)
  else if isEOPropertyWithFunctionExpression eoProp then
    Return (new_EOProp EOFunctionExpressionProp eoProp options)
  else if isEOPropertyForClassDecorator eoProp then
    Return (new_EOProp EOClassDecorator eoProp options)
  else if isEOPropertyForActionsObject eoProp then
    Return (new_EOProp EOActionsProp eoProp options)
  else
    assert (isEOPropertySimple eoProp) ;;
    Return (new_EOProp EOSimpleProp eoProp options).

(** No branch before the final [else] takes the declaration. *)
Definition falls_through (eoProp : EOExpressionProp) : bool :=
  negb (isEOPropertyWithCallExpression eoProp)
  && negb (isEOMethod eoProp)
  && negb (isEOPropertyWithFunctionExpression eoProp)
  && negb (isEOPropertyForClassDecorator eoProp)
  && negb (isEOPropertyForActionsObject eoProp).

End Classifier.

(** *** The decision table of the design, as predicates on the trees *)

(** Modelled from the spec: the type predicates of the AST module are not
    among the sources.  They follow the decision order of the Property
    Variant Classifier: a value that is a call; a method-style function bound
    directly as the property; a plain function expression; one of the fixed
    class-level behaviour names; the key [actions] with an object map; and
    otherwise the plain value. *)
Definition spec_isEOPropertyWithCallExpression (p : EOExpressionProp) : bool :=
  match p with
  | EOProperty _ (CallExpression _ _) _ _ _ => true
  | _ => false
  end.

Definition spec_isEOMethod (p : EOExpressionProp) : bool :=
  match p with
  | EOMethod _ _ _ _ _ _ => true
  | _ => false
  end.

Definition spec_isEOPropertyWithFunctionExpression (p : EOExpressionProp)
  : bool :=
  match p with
  | EOProperty _ (FunctionExpression _ _) _ _ _ => true
  | _ => false
  end.

Definition class_decorator_names : list string :=
  [ "tagName"; "classNames"; "classNameBindings"; "attributeBindings";
    "layout" ].

Definition spec_isEOPropertyForClassDecorator (p : EOExpressionProp) : bool :=
  match p with
  | EOProperty k _ _ _ _ => includes class_decorator_names (name k)
  | _ => false
  end.

Definition spec_isEOPropertyForActionsObject (p : EOExpressionProp) : bool :=
  match p with
  | EOProperty k (ObjectExpression _) _ _ _ => String.eqb (name k) "actions"
  | _ => false
  end.

Definition spec_isEOPropertySimple (p : EOExpressionProp) : bool :=
  match p with
  | EOProperty _ (CallExpression _ _) _ _ _ => false
  | EOProperty _ (FunctionExpression _ _) _ _ _ => false
  | EOProperty _ _ _ _ _ => true
  | EOMethod _ _ _ _ _ _ => false
  end.

(** Modelled from the spec: the call-expression disambiguator is not among
    the sources.  A call to a known computed-property macro becomes one of
    the two computed variants, chosen by its final argument; any other call
    falls back to the decorated-call variant.  Which callees are known macros
    is decided by [isKnownMacro]. *)
Definition spec_makeEOCallExpressionProp (isKnownMacro : Expression -> bool)
  (eoProp : EOExpressionProp) (existingDecoratorImportInfos : unit)
  (options : Options) : Completion EOProp :=
  match eoProp with
  | EOProperty _ (CallExpression callee args) _ _ _ =>
      if isKnownMacro callee then
        match last args with
        | Some (FunctionExpression _ _) =>
            Return (new_EOProp EOComputedFunctionExpressionProp eoProp options)
        | Some (ObjectExpression _) =>
            Return (new_EOProp EOComputedObjectExpressionProp eoProp options)
        | _ => Return (new_EOProp EODecoratedProp eoProp options)
        end
      else Return (new_EOProp EODecoratedProp eoProp options)
  | _ => Return (new_EOProp EODecoratedProp eoProp options)
  end.

(** The classifier over the decision table of the design. *)
Definition spec_makeEOProp (isKnownMacro : Expression -> bool)
  : EOExpressionProp -> unit -> Options -> Completion EOProp :=
  makeEOProp unit
    spec_isEOPropertyWithCallExpression spec_isEOMethod
    spec_isEOPropertyWithFunctionExpression
    spec_isEOPropertyForClassDecorator spec_isEOPropertyForActionsObject
    spec_isEOPropertySimple (spec_makeEOCallExpressionProp isKnownMacro).

(** ** Actions object expansion *)

(** A method member of the native class. *)
Record ClassMethod : Type := mkClassMethod {
  cm_key : Identifier;
  cm_params : list string;
  cm_body : string;
  cm_comments : option (list string);
  cm_decorators : list Decorator
}.

Definition action_decorator : Decorator :=
  IdentifierExpression (mkIdentifier "action").

(** The entries of the object map of an actions declaration. *)
Definition action_entries (this : EOProp) : list EOExpressionProp :=
  match prop_value (rawProp this) with
  | Some (ObjectExpression properties) => properties
  | _ => []
  end.

(** Modelled from the spec: the actions class is not among the sources.  An
    actions declaration expands into one method per function-valued entry of
    its object map, each carrying the implicit [action] annotation after the
    annotations the entry already has. *)
Definition action_method (entry : EOExpressionProp) : option ClassMethod :=
  match entry with
  | EOMethod k ps b _ c d =>
      Some {| cm_key := k; cm_params := ps; cm_body := b; cm_comments := c;
              cm_decorators := nullish d [] ++ [action_decorator] |}
  | EOProperty k (FunctionExpression ps b) _ c d =>
      Some {| cm_key := k; cm_params := ps; cm_body := b; cm_comments := c;
              cm_decorators := nullish d [] ++ [action_decorator] |}
  | _ => None
  end.

Definition EOActionsProp_build (this : EOProp) : list ClassMethod :=
  omap action_method (action_entries this).

(** The entries that are not function-valued: each is a validation error of
    the actions declaration, and the other entries are still expanded. *)
Definition EOActionsProp_malformed (this : EOProp) : list EOExpressionProp :=
  filter (fun entry => action_method entry = None) (action_entries this).

(** ** The decorator-import aggregation of the AST helpers *)

Record DecoratorImportSpecs : Type := mkDecoratorImportSpecs {
  action : bool;
  classNames : bool;
  classNameBindings : bool;
  attributeBindings : bool;
  layout : bool;
  templateLayout : bool;
  off : bool;
  tagName : bool;
  unobserves : bool
}.

(** The capability getters of the class-decorator class, which is not among
    the sources. *)
Record ClassDecoratorGetters : Type := mkClassDecoratorGetters {
  isClassNames : EOProp -> bool;
  isClassNameBindings : EOProp -> bool;
  isAttributeBindings : EOProp -> bool;
  isLayoutDecorator : EOProp -> bool;
  isTemplateLayoutDecorator : EOProp -> bool;
  isTagName : EOProp -> bool
}.

Section Aggregator.

Variable G : ClassDecoratorGetters.

(** The body of the loop: the object literal assigned to [specs]. *)
Definition import_specs_step (specs : DecoratorImportSpecs) (prop : EOProp)
  : DecoratorImportSpecs :=
  {| action := action specs || instanceof prop EOActionsObjectProp;
     classNames :=
       classNames specs
       || (instanceof prop EOClassDecoratorProp && isClassNames G prop);
     classNameBindings :=
       classNameBindings specs
       || (instanceof prop EOClassDecoratorProp && isClassNameBindings G prop);
     attributeBindings :=
       attributeBindings specs
       || (instanceof prop EOClassDecoratorProp && isAttributeBindings G prop);
     layout :=
       layout specs
       || (instanceof prop EOClassDecoratorProp && isLayoutDecorator G prop);
     templateLayout :=
       templateLayout specs
       || (instanceof prop EOClassDecoratorProp
           && isTemplateLayoutDecorator G prop);
     off := off specs || hasOffDecorator (super prop);
     tagName :=
       tagName specs
       || (instanceof prop EOClassDecoratorProp && isTagName G prop);
     unobserves := unobserves specs || hasUnobservesDecorator (super prop) |}.

Definition getDecoratorsToImportSpecs (instanceProps : list EOProp)
  (existingSpecs : DecoratorImportSpecs) : DecoratorImportSpecs :=
  fold_left import_specs_step instanceProps existingSpecs.

End Aggregator.

(** The field-wise logical OR of two import-spec records, and the record with
    every field false. *)
Definition specs_or (a b : DecoratorImportSpecs) : DecoratorImportSpecs :=
  {| action := action a || action b;
     classNames := classNames a || classNames b;
     classNameBindings := classNameBindings a || classNameBindings b;
     attributeBindings := attributeBindings a || attributeBindings b;
     layout := layout a || layout b;
     templateLayout := templateLayout a || templateLayout b;
     off := off a || off b;
     tagName := tagName a || tagName b;
     unobserves := unobserves a || unobserves b |}.

Definition no_specs : DecoratorImportSpecs :=
  {| action := false; classNames := false; classNameBindings := false;
     attributeBindings := false; layout := false; templateLayout := false;
     off := false; tagName := false; unobserves := false |}.

(** The fields of the record, to speak about each of them. *)
Definition DecoratorImportSpecs_fields : list (DecoratorImportSpecs -> bool) :=
  [ action; classNames; classNameBindings; attributeBindings; layout;
    templateLayout; off; tagName; unobserves ].

(** ** parseEmberObjectCallExpression of the AST helpers *)

Record CallExpressionNode : Type := mkCallExpressionNode {
  call_callee : Expression;
  call_arguments : list Expression
}.

Record ASTPath (A : Type) : Type := mkASTPath { path_value : A }.
Arguments mkASTPath {A} path_value.
Arguments path_value {A} _.

Record EOCallExpressionProps : Type := mkEOCallExpressionProps {
  eoExpression : option Expression;
  mixins : list Expression
}.

Definition isObjectExpression (e : Expression) : bool :=
  String.eqb (Expression_type e) "ObjectExpression".

(** The body of the loop over the arguments. *)
Definition parse_step (props : EOCallExpressionProps)
  (callExpressionArg : Expression) : EOCallExpressionProps :=
  if isObjectExpression callExpressionArg then
    {| eoExpression := Some callExpressionArg; mixins := mixins props |}
  else
    {| eoExpression := eoExpression props;
       mixins := mixins props ++ [callExpressionArg] |}.

Definition parseEmberObjectCallExpression
  (eoCallExpression : ASTPath CallExpressionNode) : EOCallExpressionProps :=
  let callExpressionArgs := call_arguments (path_value eoCallExpression) in
  let props := {| eoExpression := None; mixins := [] |} in
  fold_left parse_step callExpressionArgs props.

(** ** The transform entry point *)

(** [String.prototype.toLowerCase] on the characters that matter for the
    comparison with [.js] and [.ts]: [A]-[Z] are mapped to [a]-[z]; no other
    character lowers to a character of these two strings, so every other
    byte is kept. *)
Definition ascii_toLowerCase (c : ascii) : ascii :=
  let n := nat_of_ascii c in
  if Nat.leb 65 n && Nat.leb n 90 then ascii_of_nat (n + 32) else c.

Fixpoint toLowerCase (s : string) : string :=
  match s with
  | EmptyString => EmptyString
  | String c s' => String (ascii_toLowerCase c) (toLowerCase s')
  end.

(** Two characters are the same up to the case of a letter. *)
Definition ascii_eq_ignore_case (a b : ascii) : bool :=
  let x := nat_of_ascii a in
  let y := nat_of_ascii b in
  Nat.eqb x y
  || (Nat.leb 65 x && Nat.leb x 90 && Nat.eqb (x + 32) y)
  || (Nat.leb 65 y && Nat.leb y 90 && Nat.eqb (y + 32) x).

(** Case-insensitive comparison of two strings. *)
Fixpoint eq_ignore_case (s t : string) : bool :=
  match s, t with
  | EmptyString, EmptyString => true
  | String a s', String b t' =>
      ascii_eq_ignore_case a b && eq_ignore_case s' t'
  | _, _ => false
  end.

(** What the transformer does to the outside, in order. *)
Inductive Effect : Type :=
| Parsed (source : string)
| ConfigRead
| Transformed (filePath : string)
| Printed.

Record FileInfo : Type := mkFileInfo {
  file_source : string;
  file_path : string
}.

Section Transformer.

(** [path.extname] of Node. *)
Variable extname : string -> string.

(** The jscodeshift collection of a parsed source, the parser [j], the
    configuration loader, the rewriting of the Ember objects (it updates the
    collection in place and tells whether it replaced anything) and the
    printer. *)
Variable Collection : Type.
Variable UserOptions : Type.
Variable j : string -> Collection.
Variable getConfig : unit -> UserOptions.
Variable quotes : UserOptions -> option string.
Variable quote : UserOptions -> option string.
Variable maybeTransformEmberObjects :
  Collection -> string -> UserOptions -> bool * Collection.
Variable toSource : Collection -> option string -> string.

(** [a ?? b] where [b] may itself be undefined. *)
Definition nullish_or {A : Type} (a b : option A) : option A :=
  match a with
  | Some x => Some x
  | None => b
  end.

(** The transformer: its result ([None] is [undefined]) and its effects. *)
Definition transformer (file : FileInfo) : option string * list Effect :=
  let source := file_source file in
  let filePath := file_path file in
  let extension := extname filePath in
  if negb (includes [".js"; ".ts"] (toLowerCase extension)) then
    (None, [])
  else
    let root := j source in
    let userOptions := getConfig tt in
    let '(replaced, root) :=
      maybeTransformEmberObjects root filePath userOptions in
    let effects := [Parsed source; ConfigRead; Transformed filePath] in
    if replaced then
      (Some (toSource root (nullish_or (quotes userOptions)
                                       (quote userOptions))),
       effects ++ [Printed])
    else (Some source, effects).

End Transformer.

(** A model of [path.extname] for POSIX paths, to run the transformer on
    concrete paths: the extension of the last path segment (trailing slashes
    skipped), from its last dot; empty when the segment has no dot, starts
    with its only dot, or is [..]. *)
Fixpoint only_slashes (s : string) : bool :=
  match s with
  | EmptyString => true
  | String c s' => Ascii.eqb c "/" && only_slashes s'
  end.

Fixpoint last_segment (acc : string) (s : string) : string :=
  match s with
  | EmptyString => acc
  | String c s' =>
      if Ascii.eqb c "/" then
        if only_slashes s' then acc else last_segment EmptyString s'
      else last_segment (acc +:+ String c EmptyString) s'
  end.

Fixpoint from_last_dot (s : string) : option string :=
  match s with
  | EmptyString => None
  | String c s' =>
      match from_last_dot s' with
      | Some e => Some e
      | None => if Ascii.eqb c "." then Some s else None
      end
  end.

Definition posix_extname (p : string) : string :=
  let base := last_segment EmptyString p in
  match base with
  | EmptyString => EmptyString
  | String _ rest =>
      if String.eqb base ".." then EmptyString
      else nullish (from_last_dot rest) EmptyString
  end.

(** ** Concrete declarations, records and models *)

(** [foo: 1] *)
Definition foo_decl : EOExpressionProp :=
  EOProperty (mkIdentifier "foo") (Literal (LNumber "1")) None None None.

(** [{ computedProperties: ['foo'], offProperties: { foo: ['change'] },
       overriddenActions: ['foo'], overriddenProperties: ['foo'],
       unobservedProperties: { foo: [] } }], with no [type]. *)
Definition rd_without_type : RuntimeData :=
  {| type := None;
     computedProperties := Some ["foo"];
     offProperties := Some {[ "foo" := [LString "change"] ]};
     overriddenActions := Some ["foo"];
     overriddenProperties := Some ["foo"];
     unobservedProperties := Some {[ "foo" := [] ]} |}.

(** [{ type: 'Component', unobservedProperties: { foo: [] } }] *)
Definition rd_unobserved_foo : RuntimeData :=
  {| type := Some "Component";
     computedProperties := None;
     offProperties := None;
     overriddenActions := None;
     overriddenProperties := None;
     unobservedProperties := Some {[ "foo" := [] ]} |}.

(** The Simple model of [foo: 1] built with that record. *)
Definition simple_foo_unobserved : EOProp :=
  new_EOProp EOSimpleProp foo_decl
    {| classFields := true; runtimeData := Some rd_unobserved_foo |}.

(** The Simple model of [foo: 1] built without runtime data. *)
Definition simple_foo_plain : EOProp :=
  new_EOProp EOSimpleProp foo_decl
    {| classFields := true; runtimeData := None |}.

(** [config: {}], and its Simple model built with class fields disabled. *)
Definition config_decl : EOExpressionProp :=
  EOProperty (mkIdentifier "config") (ObjectExpression []) None None None.


(** A diagnostic format: the name of the property, then the message. *)
Definition example_makeError (this : EOProp) (message : string) : string :=
  "[" +:+ AbstractEOProp_name (super this) +:+ "]: " +:+ message.

(** [actions: {}] and its Actions model. *)
Definition empty_actions_decl : EOExpressionProp :=
  EOProperty (mkIdentifier "actions") (ObjectExpression []) None None None.

Definition empty_actions_prop : EOProp :=
  new_EOProp EOActionsProp empty_actions_decl
    {| classFields := true; runtimeData := None |}.

(** Capability getters that read the name of the declaration. *)
Definition named (n : string) (prop : EOProp) : bool :=
  String.eqb (AbstractEOProp_name (super prop)) n.

Definition example_getters : ClassDecoratorGetters :=
  {| isClassNames := named "classNames";
     isClassNameBindings := named "classNameBindings";
     isAttributeBindings := named "attributeBindings";
     isLayoutDecorator := named "layout";
     isTemplateLayoutDecorator := fun _ => false;
     isTagName := named "tagName" |}.

(** [tagName: 'div'] as a class-decorator model. *)
Definition tagName_prop : EOProp :=
  new_EOProp EOClassDecorator
    (EOProperty (mkIdentifier "tagName") (Literal (LString "div"))
       None None None)
    {| classFields := true; runtimeData := None |}.

(** What one model contributes to the import specs: the step from the
    all-false record. *)
Definition contribution (G : ClassDecoratorGetters) (prop : EOProp)
  : DecoratorImportSpecs :=
  import_specs_step G no_specs prop.

(** An Actions model is realized when its expansion has at least one method
    that carries the [action] annotation. *)
Definition realized_as_action_method (prop : EOProp) : Prop :=
  exists m, In m (EOActionsProp_build prop)
            /\ In action_decorator (cm_decorators m).

(** The reading of the import accounting under which, from an all-false
    record, the [action] field becomes true only through an Actions model
    that is realized. *)
Definition action_only_when_realized : Prop :=
  forall (G : ClassDecoratorGetters) (instanceProps : list EOProp),
    action (getDecoratorsToImportSpecs G instanceProps no_specs) = true ->
    exists prop, In prop instanceProps
                 /\ instanceof prop EOActionsObjectProp = true
                 /\ realized_as_action_method prop.

(** [actions: { save: function (..) {..}, cancel: function (..) {..} }] *)
Definition save_cancel_decl (params1 : list string) (body1 : string)
  (params2 : list string) (body2 : string) : EOExpressionProp :=
  EOProperty (mkIdentifier "actions")
    (ObjectExpression
       [ EOProperty (mkIdentifier "save") (FunctionExpression params1 body1)
           None None None;
         EOProperty (mkIdentifier "cancel") (FunctionExpression params2 body2)
           None None None ])
    None None None.

(** No character of the string is an upper-case letter. *)
Fixpoint has_no_upper (s : string) : bool :=
  match s with
  | EmptyString => true
  | String c s' =>
      negb (Nat.leb 65 (nat_of_ascii c) && Nat.leb (nat_of_ascii c) 90)
      && has_no_upper s'
  end.

(** A file that is not a script, and collaborators that leave a parsed
    source as it is. *)
Definition readme_file : FileInfo :=
  {| file_source := "# notes"; file_path := "docs/README.md" |}.

Definition upper_js_file : FileInfo :=
  {| file_source := "export default 1;"; file_path := "app/models/user.JS" |}.

Definition idle_transformer : FileInfo -> option string * list Effect :=
  transformer posix_extname string unit
    (fun source => source) (fun _ => tt) (fun _ => None) (fun _ => None)
    (fun root _ _ => (false, root)) (fun root _ => root).

(** ** getEmberObjectProps of the AST helpers *)

(** [array.map(f)] with a callback that may throw: the elements are visited
    from left to right and the first exception ends the traversal. *)
Fixpoint map_completion {A B : Type} (f : A -> Completion B) (l : list A)
  : Completion (list B) :=
  match l with
  | [] => Return []
  | x :: l' =>
      y ← f x;
      ys ← map_completion f l';
      Return (y :: ys)
  end.

Record EOProps : Type := mkEOProps { instanceProps : list EOProp }.

(** [eoExpression?.properties ?? []] *)
Definition properties_of (eoExpression : option Expression)
  : list EOExpressionProp :=
  match eoExpression with
  | Some (ObjectExpression properties) => properties
  | _ => []
  end.

Section EmberObjectProps.

Variable DecoratorImportInfoMap : Type.

(** [verified(objProp, isPropertyNode)] of the type utilities, and the
    classifier as the AST helpers call it, with the runtime data as its
    second argument; neither is among the sources in that form. *)
Variable verified_isPropertyNode :
  EOExpressionProp -> Completion EOExpressionProp.
Variable makeEOProp_with :
  EOExpressionProp -> option RuntimeData -> DecoratorImportInfoMap ->
  Completion EOProp.

(** The callback of the [map]. *)
Definition make_instance_prop (runtimeData : option RuntimeData)
  (existingDecoratorImportInfos : DecoratorImportInfoMap)
  (objProp : EOExpressionProp) : Completion EOProp :=
  verifiedProp ← verified_isPropertyNode objProp;
  makeEOProp_with verifiedProp runtimeData existingDecoratorImportInfos.

Definition getEmberObjectProps (eoExpression : option Expression)
  (existingDecoratorImportInfos : DecoratorImportInfoMap)
  (runtimeData : option RuntimeData) : Completion EOProps :=
  let objProps := properties_of eoExpression in
  props ← map_completion
            (make_instance_prop runtimeData existingDecoratorImportInfos)
            objProps;
  Return {| instanceProps := props |}.

End EmberObjectProps.

(** ** getClassName of the AST helpers *)

(** The left-hand side of a declarator and the elements of the
    [declarations] of a variable declaration, by their [type]. *)
Inductive Pattern : Type :=
| IdentifierPattern (id : Identifier)
| OtherPattern (pattern_type : string).

Inductive Declarator : Type :=
| VariableDeclarator (id : Pattern)
| OtherDeclarator (declarator_type : string).

(** A variable declaration has at least one declarator, so
    [defined(declarations[0])] is the first of them; the two [assert]s on
    the [type] of the declarator and of its [id] are the matches on these
    types, each throwing its message. *)
Record VariableDeclaration : Type := mkVariableDeclaration {
  first_declarator : Declarator;
  other_declarators : list Declarator
}.

Section ClassName.

(** The closest enclosing variable declaration (a jscodeshift query), the
    [camelcase] package, [path.basename] with its optional suffix,
    [path.dirname], and [capitalizeFirstLetter] of the utilities. *)
Variable getClosestVariableDeclaration :
  ASTPath CallExpressionNode -> option (ASTPath VariableDeclaration).
Variable camelCase : string -> string.
Variable basename : string -> option string -> string.
Variable dirname : string -> string.
Variable capitalizeFirstLetter : string -> string.

Definition getClassName (eoCallExpression : ASTPath CallExpressionNode)
  (filePath : string) (type : string) : Completion string :=
  match getClosestVariableDeclaration eoCallExpression with
  | Some varDeclaration =>
      let firstDeclarator := first_declarator (path_value varDeclaration) in
      match firstDeclarator with
      | VariableDeclarator identifier =>
          match identifier with
          | IdentifierPattern id => Return (name id)
          | OtherPattern _ =>
              Throw "expected firstDeclarator.id to be an Identifier"
          end
      | OtherDeclarator _ =>
          Throw "expected firstDeclarator to be a VariableDeclarator"
      end
  | None =>
      let className :=
        capitalizeFirstLetter (camelCase (basename filePath (Some "js"))) in
      let capitalizedType := capitalizeFirstLetter type in
      let className :=
        if String.eqb capitalizedType className then
          capitalizeFirstLetter (camelCase (basename (dirname filePath) None))
        else className in
      let className :=
        if negb (includes ["Component"; "Helper"; "EmberObject"] type) then
          className +:+ capitalizedType
        else className in
      Return className
  end.

(** [getClassName] when the [type] argument is left out. *)
Definition getClassName_default (eoCallExpression : ASTPath CallExpressionNode)
  (filePath : string) : Completion string :=
  getClassName eoCallExpression filePath "".

End ClassName.

(** ** More concrete declarations and collaborators *)

(** The case variants of the two accepted extensions. *)
Definition accepted_extensions : list string :=
  [ ".js"; ".jS"; ".Js"; ".JS"; ".ts"; ".tS"; ".Ts"; ".TS" ].

(** [toString: 1] *)
Definition toString_decl : EOExpressionProp :=
  EOProperty (mkIdentifier "toString") (Literal (LNumber "1")) None None None.

(** [{ type: '' , unobservedProperties: { foo: [] } }] *)
Definition rd_empty_type : RuntimeData :=
  {| type := Some "";
     computedProperties := Some ["foo"];
     offProperties := None;
     overriddenActions := None;
     overriddenProperties := None;
     unobservedProperties := Some {[ "foo" := [] ]} |}.

(** [{ type: 'Component' }] *)
Definition rd_only_type : RuntimeData :=
  {| type := Some "Component";
     computedProperties := None;
     offProperties := None;
     overriddenActions := None;
     overriddenProperties := None;
     unobservedProperties := None |}.

(** [queryParams: {}] as a Simple model with class fields enabled. *)
Definition simple_queryParams : EOProp :=
  new_EOProp EOSimpleProp
    (EOProperty (mkIdentifier "queryParams") (ObjectExpression [])
       None None None)
    {| classFields := true; runtimeData := None |}.

(** A model whose descriptors are one with arguments and one without. *)
Definition simple_mixed_descriptors : EOProp :=
  {| class_of := EOSimpleProp;
     super :=
       {| _prop := foo_decl;
          decorators :=
            [ {| decorator_name := "off";
                 decorator_args := Some [LString "change"];
                 isMetaDecorator := None |};
              descriptor "unobserves" ];
          decoratorArgs := {| args_unobserves := None; args_off := None |};
          isComputed := None;
          isOverridden := None;
          runtimeType := Some "Component" |};
     options := {| classFields := true; runtimeData := None |} |}.

(** The classifier as the AST helpers call it, over the decision table of
    the design, and a check that accepts every property. *)
Definition example_makeEOProp_with (eoProp : EOExpressionProp)
  (runtimeData : option RuntimeData) (infos : unit) : Completion EOProp :=
  spec_makeEOProp (fun _ => false) eoProp infos
    {| classFields := true; runtimeData := runtimeData |}.

Definition accept_property (p : EOExpressionProp)
  : Completion EOExpressionProp := Return p.

(** A check that rejects methods. *)
Definition reject_methods (p : EOExpressionProp)
  : Completion EOExpressionProp :=
  match p with
  | EOProperty _ _ _ _ _ => Return p
  | EOMethod _ _ _ _ _ _ => Throw "not a property"
  end.

Definition method_decl : EOExpressionProp :=
  EOMethod (mkIdentifier "init") [] "{}" None None None.

(** Collaborators that report a replacement and print the collection with
    the quote style in front. *)
Definition rewriting_transformer (quotes quote : option string)
  : FileInfo -> option string * list Effect :=
  transformer posix_extname string unit
    (fun source => source) (fun _ => tt) (fun _ => quotes) (fun _ => quote)
    (fun root _ _ => (true, "class " +:+ root))
    (fun root q => nullish q "default" +:+ ":" +:+ root).

Definition lower_ts_file : FileInfo :=
  {| file_source := "let x"; file_path := "app/a.ts" |}.

(** [const Foo = EmberObject.extend()] and [const { a } = ...], with a call
    path and queries that find them. *)
Definition call_path : ASTPath CallExpressionNode :=
  mkASTPath
    {| call_callee :=
         MemberExpression (IdentifierExpression (mkIdentifier "EmberObject"))
           (mkIdentifier "extend");
       call_arguments := [] |}.

Definition declaration_of_Foo : ASTPath VariableDeclaration :=
  mkASTPath
    {| first_declarator :=
         VariableDeclarator (IdentifierPattern (mkIdentifier "Foo"));
       other_declarators := [] |}.

Definition destructuring_declaration : ASTPath VariableDeclaration :=
  mkASTPath
    {| first_declarator := VariableDeclarator (OtherPattern "ObjectPattern");
       other_declarators := [] |}.

(** Stand-ins for the string helpers: they keep their argument. *)
Definition keep (s : string) : string := s.
Definition keep_base (s : string) (suffix : option string) : string := s.

(** [{ type: 'Component', computedProperties: ['bar'],
       offProperties: { bar: ['click'] }, overriddenActions: ['foo'],
       unobservedProperties: { foo: [], bar: ['x'] } }]: the record
    [rd_unobserved_foo] with entries for another name added. *)
Definition rd_unobserved_foo_and_bar : RuntimeData :=
  {| type := Some "Component";
     computedProperties := Some ["bar"];
     offProperties := Some {[ "bar" := [LString "click"] ]};
     overriddenActions := Some ["foo"];
     overriddenProperties := None;
     unobservedProperties :=
       Some (<[ "bar" := [LString "x"] ]> {[ "foo" := [] ]}) |}.

(** ** The Simple model over the base class of its own revision *)


(** The decorator a node stands for is named [n]: the call of [n], or [n]
    itself. *)
Definition decorator_named (n : string) (d : Decorator) : bool :=
  match d with
  | CallExpression (IdentifierExpression id) _ => String.eqb (name id) n
  | IdentifierExpression id => String.eqb (name id) n
  | _ => false
  end.



(** ** Declarations that carry a comment, and models of them *)

(** [// the foo] above [foo: 1] *)
Definition foo_commented_decl : EOExpressionProp :=
  EOProperty (mkIdentifier "foo") (Literal (LNumber "1")) None
    (Some ["// the foo"]) None.


(** A Simple model of the commented [foo: 1] that holds one descriptor with
    arguments, and one that holds none. *)
Definition simple_commented_with_descriptor : EOProp :=
  {| class_of := EOSimpleProp;
     super :=
       {| _prop := foo_commented_decl;
          decorators :=
            [ {| decorator_name := "off";
                 decorator_args := Some [LString "change"];
                 isMetaDecorator := None |} ];
          decoratorArgs := {| args_unobserves := None; args_off := None |};
          isComputed := None;
          isOverridden := None;
          runtimeType := Some "Component" |};
     options := {| classFields := true; runtimeData := None |} |}.

Definition simple_commented_plain : EOProp :=
  {| class_of := EOSimpleProp;
     super := AbstractEOProp_init foo_commented_decl;
     options := {| classFields := true; runtimeData := None |} |}.



(** ** Two readings the code does not bear out *)




(** * Properties *)

(** ** The base constructor *)

Lemma constructor_keeps_prop (eoProp : EOExpressionProp)
  (rd : option RuntimeData) :
  _prop (AbstractEOProp_constructor eoProp rd) = eoProp.
Proof.
  unfold AbstractEOProp_constructor.
  destruct rd as [rd|]; [|reflexivity].
  destruct (truthy_string (type rd)); [|reflexivity].
  cbn.
  repeat match goal with
         | |- context [if ?c then _ else _] => destruct c
         end; reflexivity.
Qed.

Lemma constructor_without_type (eoProp : EOExpressionProp) (rd : RuntimeData) :
  truthy_string (type rd) = false ->
  AbstractEOProp_constructor eoProp (Some rd) = AbstractEOProp_init eoProp.
Proof.
  intros H. unfold AbstractEOProp_constructor. rewrite H. reflexivity.
Qed.

(** Every descriptor the constructor synthesizes is a bare [{ name }]: none
    has an [args] key. *)
Lemma constructor_descriptors_bare (eoProp : EOExpressionProp)
  (rd : option RuntimeData) :
  Forall (fun d => decorator_args d = None)
    (decorators (AbstractEOProp_constructor eoProp rd)).
Proof.
  unfold AbstractEOProp_constructor.
  destruct rd as [rd|]; [|constructor].
  destruct (truthy_string (type rd)); [|constructor].
  cbn.
  repeat match goal with
         | |- context [if ?c then _ else _] => destruct c
         end; cbn; repeat constructor.
Qed.

(** A model built by the constructor has decorators exactly when the record
    has a type and names the declaration among its unobserved or its off
    properties. *)
Lemma constructor_hasDecorators (eoProp : EOExpressionProp) (rd : RuntimeData) :
  hasDecorators (AbstractEOProp_constructor eoProp (Some rd))
  = truthy_string (type rd)
    && (js_in (name (prop_key eoProp)) (nullish (unobservedProperties rd) ∅)
        || js_in (name (prop_key eoProp)) (nullish (offProperties rd) ∅)).
Proof.
  unfold AbstractEOProp_constructor, AbstractEOProp_name. cbn.
  destruct (truthy_string (type rd)); [|reflexivity].
  cbn [andb].
  destruct (js_in _ (nullish (unobservedProperties rd) ∅));
    destruct (js_in _ (nullish (offProperties rd) ∅));
    destruct (includes (nullish (computedProperties rd) []) _);
    reflexivity.
Qed.

(** The loop of [buildDecorators] emits nothing for bare descriptors and logs
    one line for each. *)
Lemma buildDecorators_bare (this : EOProp) (ds : list DecoratorImportInfo)
  (acc : list Decorator * list string) :
  Forall (fun d => decorator_args d = None) ds ->
  fold_left (buildDecorators_step this) ds acc
  = (fst acc, snd acc ++ map (fun d => ignored_message this (decorator_name d)) ds).
Proof.
  intros H. revert acc.
  induction H as [|d ds Hd _ IH]; intros acc.
  - cbn. rewrite app_nil_r. destruct acc; reflexivity.
  - cbn [fold_left]. rewrite IH. unfold buildDecorators_step at 1 2.
    rewrite Hd. cbn. rewrite <- app_assoc. reflexivity.
Qed.

(** C7: with a runtime metadata record whose [type] is absent, whatever its
    other fields hold, the constructor leaves all metadata-derived state
    empty: no decorator descriptor and no decorator argument is recorded,
    [isComputed] and [isOverridden] stay undefined, and [hasRuntimeData],
    [hasDecorators], [hasUnobservesDecorator] and [hasOffDecorator] are
    false. *)
Theorem absent_type_leaves_state_empty (eoProp : EOExpressionProp)
  (rd : RuntimeData) :
  type rd = None ->
  let this := AbstractEOProp_constructor eoProp (Some rd) in
  decorators this = []
  /\ decoratorArgs this = {| args_unobserves := None; args_off := None |}
  /\ isComputed this = None
  /\ isOverridden this = None
  /\ runtimeType this = None
  /\ hasRuntimeData this = false
  /\ hasDecorators this = false
  /\ hasUnobservesDecorator this = false
  /\ hasOffDecorator this = false.
Proof.
  intros Htype this. subst this.
  rewrite constructor_without_type by (rewrite Htype; reflexivity).
  repeat split.
Qed.

Lemma absent_type_leaves_state_empty_witness :
  type rd_without_type = None
  /\ decorators (AbstractEOProp_constructor foo_decl (Some rd_without_type)) = []
  /\ isComputed (AbstractEOProp_constructor foo_decl (Some rd_without_type))
     = None
  /\ hasRuntimeData (AbstractEOProp_constructor foo_decl (Some rd_without_type))
     = false.
Proof.
  pose proof (absent_type_leaves_state_empty foo_decl rd_without_type eq_refl)
    as H.
  cbv zeta in H.
  destruct H as (Hd & _ & Hc & _ & _ & Hr & _).
  split; [reflexivity|]. split; [exact Hd|]. split; [exact Hc|exact Hr].
Defined.

(** ** The Simple property model *)


Lemma buildDecorators_loop (this : EOProp) (ds : list DecoratorImportInfo)
  (acc : list Decorator * list string) :
  fold_left (buildDecorators_step this) ds acc
  = (fst acc
     ++ omap (fun d => option_map (createDecoratorWithArgs (decorator_name d))
                         (decorator_args d)) ds,
     snd acc
     ++ map (fun d => ignored_message this (decorator_name d))
          (List.filter (fun d => match decorator_args d with
                                 | Some _ => false
                                 | None => true
                                 end) ds)).
Proof.
  revert acc. induction ds as [|d ds IH]; intros acc.
  - cbn. rewrite !app_nil_r. destruct acc; reflexivity.
  - cbn [fold_left]. rewrite IH. unfold buildDecorators_step at 1 2.
    cbn [omap list_omap List.filter].
    destruct (decorator_args d) as [args|]; cbn [option_map fst snd map].
    + rewrite <- app_assoc. reflexivity.
    + rewrite <- app_assoc. reflexivity.
Qed.


(** The member [build()] returns, field by field. *)
Lemma simple_build_member (this : EOProp) (member : ClassProperty)
  (log : list string) :
  EOSimpleProp_build this = Return (member, log) ->
  cp_key member = AbstractEOProp_key (super this)
  /\ cp_value member
     = (if hasDecorators (super this) then None
        else prop_value (rawProp this))
  /\ cp_comments member = prop_comments (rawProp this)
  /\ cp_computed member = nullish (prop_computed (rawProp this)) false
  /\ cp_decorators member = fst (EOSimpleProp_buildDecorators this)
  /\ log = snd (EOSimpleProp_buildDecorators this).
Proof.
  unfold EOSimpleProp_build, AbstractEOProp_comments, EOSimpleProp_value.
  fold (rawProp this).
  destruct (prop_comments (rawProp this)) as [c|];
    destruct (hasDecorators (super this));
    destruct (prop_value (rawProp this)) as [v|]; cbn;
    intros H; try discriminate H; injection H as <- <-; repeat split.
Qed.

Lemma decorator_named_create (n m : string) (args : list LiteralValue) :
  decorator_named n (createDecoratorWithArgs m args) = String.eqb m n.
Proof. reflexivity. Qed.



(** C4: the member a Simple model builds has a null value when the model has
    decorators, and the value of the source declaration when it has none. *)
Theorem simple_build_value (this : EOProp) (member : ClassProperty)
  (log : list string) :
  EOSimpleProp_build this = Return (member, log) ->
  (hasDecorators (super this) = true -> cp_value member = None)
  /\ (hasDecorators (super this) = false ->
      cp_value member = prop_value (rawProp this)).
Proof.
  intros Hb. apply simple_build_member in Hb as (_ & Hv & _).
  rewrite Hv. split; intros H; rewrite H; reflexivity.
Qed.

Lemma simple_build_value_witness :
  (hasDecorators (super simple_commented_with_descriptor) = true
   /\ EOSimpleProp_build simple_commented_with_descriptor
      = Return ({| cp_key := mkIdentifier "foo";
                   cp_value := None;
                   cp_comments := Some ["// the foo"];
                   cp_computed := false;
                   cp_decorators :=
                     [createDecoratorWithArgs "off" [LString "change"]] |},
                []))
  /\ (hasDecorators (super simple_commented_plain) = false
      /\ EOSimpleProp_build simple_commented_plain
         = Return ({| cp_key := mkIdentifier "foo";
                      cp_value := Some (Literal (LNumber "1"));
                      cp_comments := Some ["// the foo"];
                      cp_computed := false;
                      cp_decorators := [] |},
                   [])).
Proof.
  assert (H1 : EOSimpleProp_build simple_commented_with_descriptor
      = Return ({| cp_key := mkIdentifier "foo";
                   cp_value := None;
                   cp_comments := Some ["// the foo"];
                   cp_computed := false;
                   cp_decorators :=
                     [createDecoratorWithArgs "off" [LString "change"]] |},
                [])) by reflexivity.
  assert (H2 : EOSimpleProp_build simple_commented_plain
         = Return ({| cp_key := mkIdentifier "foo";
                      cp_value := Some (Literal (LNumber "1"));
                      cp_comments := Some ["// the foo"];
                      cp_computed := false;
                      cp_decorators := [] |},
                   [])) by reflexivity.
  pose proof (proj1 (simple_build_value _ _ _ H1) eq_refl) as V1.
  pose proof (proj2 (simple_build_value _ _ _ H2) eq_refl) as V2.
  cbn in V1, V2.
  split; (split; [reflexivity|assumption]).
Defined.





(** ** The classifier *)

Section ClassifierFacts.

Variable DecoratorImportInfoMap : Type.
Variable isEOPropertyWithCallExpression : EOExpressionProp -> bool.
Variable isEOMethod : EOExpressionProp -> bool.
Variable isEOPropertyWithFunctionExpression : EOExpressionProp -> bool.
Variable isEOPropertyForClassDecorator : EOExpressionProp -> bool.
Variable isEOPropertyForActionsObject : EOExpressionProp -> bool.
Variable isEOPropertySimple : EOExpressionProp -> bool.
Variable makeEOCallExpressionProp :
  EOExpressionProp -> DecoratorImportInfoMap -> Options -> Completion EOProp.

Local Abbreviation classify :=
  (makeEOProp DecoratorImportInfoMap
     isEOPropertyWithCallExpression isEOMethod
     isEOPropertyWithFunctionExpression isEOPropertyForClassDecorator
     isEOPropertyForActionsObject isEOPropertySimple
     makeEOCallExpressionProp).

Local Abbreviation fallthrough :=
  (falls_through
     isEOPropertyWithCallExpression isEOMethod
     isEOPropertyWithFunctionExpression isEOPropertyForClassDecorator
     isEOPropertyForActionsObject).

(** The class the decision order selects for a declaration that is not a
    call expression. *)
Local Abbreviation selected eoProp :=
  (if isEOMethod eoProp then EOMethodProp
   else if isEOPropertyWithFunctionExpression eoProp
        then EOFunctionExpressionProp
   else if isEOPropertyForClassDecorator eoProp then EOClassDecorator
   else if isEOPropertyForActionsObject eoProp then EOActionsProp
   else EOSimpleProp).

(** A call expression is handed to the disambiguator as it is. *)
Lemma makeEOProp_call (eoProp : EOExpressionProp)
  (infos : DecoratorImportInfoMap) (opts : Options) :
  isEOPropertyWithCallExpression eoProp = true ->
  classify eoProp infos opts = makeEOCallExpressionProp eoProp infos opts.
Proof. intros H. unfold makeEOProp. rewrite H. reflexivity. Qed.

(** Any other declaration taken by one of the four next tests, or passing
    the guard of the last branch, becomes a model of the selected class. *)
Lemma makeEOProp_not_call (eoProp : EOExpressionProp)
  (infos : DecoratorImportInfoMap) (opts : Options) :
  isEOPropertyWithCallExpression eoProp = false ->
  (fallthrough eoProp = true -> isEOPropertySimple eoProp = true) ->
  classify eoProp infos opts
  = Return (new_EOProp (selected eoProp) eoProp opts).
Proof.
  intros Hcall Hguard. unfold makeEOProp, falls_through in *.
  rewrite Hcall in *. cbn [negb andb] in Hguard.
  destruct (isEOMethod eoProp); [reflexivity|].
  destruct (isEOPropertyWithFunctionExpression eoProp); [reflexivity|].
  destruct (isEOPropertyForClassDecorator eoProp); [reflexivity|].
  destruct (isEOPropertyForActionsObject eoProp); [reflexivity|].
  rewrite (Hguard eq_refl). reflexivity.
Qed.

(** The classifier throws in exactly two situations: the disambiguator it
    delegates to throws, or a declaration that reaches the last branch fails
    the guard of that branch. *)
Lemma makeEOProp_throws (eoProp : EOExpressionProp)
  (infos : DecoratorImportInfoMap) (opts : Options) (e : string) :
  classify eoProp infos opts = Throw e <->
  (isEOPropertyWithCallExpression eoProp = true
   /\ makeEOCallExpressionProp eoProp infos opts = Throw e)
  \/ (fallthrough eoProp = true /\ isEOPropertySimple eoProp = false
      /\ e = "Assertion Error").
Proof.
  unfold makeEOProp, falls_through.
  destruct (isEOPropertyWithCallExpression eoProp); cbn [negb andb].
  { split; [intros H; left; auto|intros [[_ H]|[H _]]; [exact H|discriminate]]. }
  destruct (isEOMethod eoProp); cbn [negb andb].
  { split; [discriminate|intros [[H _]|[H _]]; discriminate]. }
  destruct (isEOPropertyWithFunctionExpression eoProp); cbn [negb andb].
  { split; [discriminate|intros [[H _]|[H _]]; discriminate]. }
  destruct (isEOPropertyForClassDecorator eoProp); cbn [negb andb].
  { split; [discriminate|intros [[H _]|[H _]]; discriminate]. }
  destruct (isEOPropertyForActionsObject eoProp); cbn [negb andb].
  { split; [discriminate|intros [[H _]|[H _]]; discriminate]. }
  destruct (isEOPropertySimple eoProp); cbn.
  { split; [discriminate|intros [[H _]|(_ & H & _)]; discriminate]. }
  split.
  - intros H. right. injection H as <-. auto.
  - intros [[H _]|(_ & _ & ->)]; [discriminate|reflexivity].
Qed.


End ClassifierFacts.

(** Under the decision table of the design the guard of the last branch
    holds for every declaration that reaches it, and the disambiguator
    returns on every declaration. *)
Lemma spec_table_guard (p : EOExpressionProp) :
  falls_through spec_isEOPropertyWithCallExpression spec_isEOMethod
    spec_isEOPropertyWithFunctionExpression
    spec_isEOPropertyForClassDecorator spec_isEOPropertyForActionsObject p
  = true ->
  spec_isEOPropertySimple p = true.
Proof.
  unfold falls_through.
  destruct p as [k v c cm d|k ps b c cm d]; [|discriminate].
  destruct v; cbn; try discriminate; reflexivity.
Qed.

Lemma spec_disambiguator_returns (isKnownMacro : Expression -> bool)
  (p : EOExpressionProp) (opts : Options) :
  exists v, spec_makeEOCallExpressionProp isKnownMacro p tt opts = Return v.
Proof.
  unfold spec_makeEOCallExpressionProp.
  destruct p as [k v c cm d|k ps b c cm d]; [|eexists; reflexivity].
  destruct v; try (eexists; reflexivity).
  destruct (isKnownMacro v); [|eexists; reflexivity].
  destruct (last arguments) as [[]|]; eexists; reflexivity.
Qed.

(** Over that table the classifier returns a model for every declaration. *)
Lemma spec_makeEOProp_returns (isKnownMacro : Expression -> bool)
  (p : EOExpressionProp) (opts : Options) :
  exists v, spec_makeEOProp isKnownMacro p tt opts = Return v.
Proof.
  unfold spec_makeEOProp.
  destruct (spec_isEOPropertyWithCallExpression p) eqn:Ec.
  - rewrite makeEOProp_call by exact Ec. apply spec_disambiguator_returns.
  - eexists. apply makeEOProp_not_call; [exact Ec|apply spec_table_guard].
Qed.


(** ** The decorator-import aggregation *)

Lemma specs_or_assoc (a b c : DecoratorImportSpecs) :
  specs_or a (specs_or b c) = specs_or (specs_or a b) c.
Proof.
  destruct a, b, c. unfold specs_or. cbn. f_equal; apply orb_assoc.
Qed.

Lemma specs_or_comm (a b : DecoratorImportSpecs) :
  specs_or a b = specs_or b a.
Proof.
  destruct a, b. unfold specs_or. cbn. f_equal; apply orb_comm.
Qed.

Lemma specs_or_idem (a : DecoratorImportSpecs) : specs_or a a = a.
Proof.
  destruct a. unfold specs_or. cbn. f_equal; apply orb_diag.
Qed.

Lemma specs_or_no_specs_l (a : DecoratorImportSpecs) :
  specs_or no_specs a = a.
Proof. destruct a. reflexivity. Qed.

Section AggregatorFacts.

Variable G : ClassDecoratorGetters.

Local Abbreviation aggregate := (getDecoratorsToImportSpecs G).

(** One turn of the loop ORs the model's contribution into the record. *)
Lemma import_specs_step_or (specs : DecoratorImportSpecs) (prop : EOProp) :
  import_specs_step G specs prop = specs_or specs (contribution G prop).
Proof. reflexivity. Qed.

Lemma aggregate_fold_or (props : list EOProp) (e : DecoratorImportSpecs) :
  aggregate props e = fold_left specs_or (map (contribution G) props) e.
Proof.
  unfold getDecoratorsToImportSpecs. revert e.
  induction props as [|p props IH]; intros e; [reflexivity|].
  cbn [fold_left map]. rewrite IH. reflexivity.
Qed.

Lemma aggregate_app (ps qs : list EOProp) (e : DecoratorImportSpecs) :
  aggregate (ps ++ qs) e = aggregate qs (aggregate ps e).
Proof. unfold getDecoratorsToImportSpecs. apply fold_left_app. Qed.

(** The result is the existing record ORed with what the models contribute
    from the all-false record. *)
Lemma aggregate_or (props : list EOProp) (e : DecoratorImportSpecs) :
  aggregate props e = specs_or e (aggregate props no_specs).
Proof.
  unfold getDecoratorsToImportSpecs. revert e.
  induction props as [|p props IH]; intros e.
  - cbn. destruct e. unfold specs_or. cbn. f_equal; symmetry; apply orb_false_r.
  - cbn [fold_left]. rewrite IH.
    rewrite (IH (import_specs_step G no_specs p)).
    rewrite !import_specs_step_or, specs_or_no_specs_l.
    symmetry. apply specs_or_assoc.
Qed.

Lemma aggregate_swap (p q : EOProp) (e : DecoratorImportSpecs) :
  import_specs_step G (import_specs_step G e p) q
  = import_specs_step G (import_specs_step G e q) p.
Proof.
  rewrite !import_specs_step_or, <- !specs_or_assoc.
  f_equal. apply specs_or_comm.
Qed.

Lemma aggregate_permutation (ps qs : list EOProp) :
  Permutation ps qs ->
  forall e, aggregate ps e = aggregate qs e.
Proof.
  unfold getDecoratorsToImportSpecs.
  induction 1 as [|x l l' _ IH|x y l|l l' l'' _ IH1 _ IH2]; intros e.
  - reflexivity.
  - cbn [fold_left]. apply IH.
  - cbn [fold_left]. rewrite aggregate_swap. reflexivity.
  - rewrite IH1. apply IH2.
Qed.

Lemma aggregate_idempotent (props : list EOProp) (e : DecoratorImportSpecs) :
  aggregate props (aggregate props e) = aggregate props e.
Proof.
  rewrite (aggregate_or props (aggregate props e)).
  rewrite (aggregate_or props e) at 1 2.
  rewrite <- specs_or_assoc, specs_or_idem. reflexivity.
Qed.

Lemma aggregate_monotone (props : list EOProp) (e : DecoratorImportSpecs) :
  Forall (fun field => field e = true -> field (aggregate props e) = true)
    DecoratorImportSpecs_fields.
Proof.
  rewrite aggregate_or.
  destruct e, (aggregate props no_specs). unfold specs_or. cbn.
  repeat constructor; cbn; intros ->; reflexivity.
Qed.

(** C3: the aggregation is the left fold of the field-wise OR over the
    contributions of the models.  It gives the same record for every
    permutation of the model sequence, it can be regrouped (aggregating a
    concatenation is ORing the two partial aggregations, and the OR is
    associative and commutative), running it again on its own output with
    the same models changes nothing, and no field that is true in the
    existing record is false in the result. *)
Theorem aggregate_or_fold_laws (ps qs : list EOProp)
  (e : DecoratorImportSpecs) :
  Permutation ps qs ->
  aggregate ps e = fold_left specs_or (map (contribution G) ps) e
  /\ aggregate ps e = aggregate qs e
  /\ (forall rs, aggregate (ps ++ rs) e
                 = specs_or (aggregate ps e) (aggregate rs no_specs))
  /\ (forall rs ts, aggregate ((ps ++ rs) ++ ts) e
                    = aggregate (ps ++ (rs ++ ts)) e)
  /\ (forall a b c, specs_or a (specs_or b c) = specs_or (specs_or a b) c)
  /\ (forall a b, specs_or a b = specs_or b a)
  /\ aggregate ps (aggregate ps e) = aggregate ps e
  /\ Forall (fun field => field e = true -> field (aggregate ps e) = true)
       DecoratorImportSpecs_fields.
Proof.
  intros Hperm.
  split; [apply aggregate_fold_or|].
  split; [apply aggregate_permutation; exact Hperm|].
  split; [intros rs; rewrite aggregate_app; apply aggregate_or|].
  split; [intros rs ts; rewrite <- app_assoc; reflexivity|].
  split; [apply specs_or_assoc|].
  split; [apply specs_or_comm|].
  split; [apply aggregate_idempotent|apply aggregate_monotone].
Qed.

(** The [action] field after aggregation. *)
Lemma aggregate_action (props : list EOProp) (e : DecoratorImportSpecs) :
  action (aggregate props e)
  = action e || existsb (fun prop => instanceof prop EOActionsObjectProp) props.
Proof.
  unfold getDecoratorsToImportSpecs. revert e.
  induction props as [|p props IH]; intros e.
  - cbn. symmetry. apply orb_false_r.
  - cbn [fold_left existsb]. rewrite IH. cbn [import_specs_step action].
    symmetry. apply orb_assoc.
Qed.

End AggregatorFacts.

Lemma aggregate_or_fold_laws_witness :
  Permutation [empty_actions_prop; tagName_prop]
              [tagName_prop; empty_actions_prop]
  /\ getDecoratorsToImportSpecs example_getters
       [empty_actions_prop; tagName_prop] no_specs
     = getDecoratorsToImportSpecs example_getters
         [tagName_prop; empty_actions_prop] no_specs.
Proof.
  split; [apply perm_swap|].
  exact (proj1 (proj2 (aggregate_or_fold_laws example_getters
                         [empty_actions_prop; tagName_prop]
                         [tagName_prop; empty_actions_prop] no_specs
                         (perm_swap _ _ _)))).
Defined.

(** ** Actions objects and the [action] import *)

Lemma action_entries_new (decl : EOExpressionProp) (opts : Options) :
  action_entries (new_EOProp EOActionsProp decl opts)
  = match prop_value decl with
    | Some (ObjectExpression properties) => properties
    | _ => []
    end.
Proof.
  unfold action_entries, rawProp, new_EOProp. cbn [super].
  rewrite constructor_keeps_prop. reflexivity.
Qed.

(** C5, as the claim states it, fails: the declaration [actions: {}] is
    classified as an Actions model, expands into no method at all, and still
    turns the [action] field of an all-false record to true. *)
Lemma empty_actions_sets_action_flag :
  spec_makeEOProp (fun _ => false) empty_actions_decl tt
    {| classFields := true; runtimeData := None |}
  = Return empty_actions_prop
  /\ instanceof empty_actions_prop EOActionsObjectProp = true
  /\ EOActionsProp_build empty_actions_prop = []
  /\ action (getDecoratorsToImportSpecs example_getters
               [empty_actions_prop] no_specs) = true
  /\ ~ action_only_when_realized.
Proof.
  assert (Hb : EOActionsProp_build empty_actions_prop = [])
    by (vm_compute; reflexivity).
  assert (Ha : action (getDecoratorsToImportSpecs example_getters
                         [empty_actions_prop] no_specs) = true)
    by (vm_compute; reflexivity).
  split; [vm_compute; reflexivity|].
  split; [vm_compute; reflexivity|].
  split; [exact Hb|]. split; [exact Ha|].
  intros Hclaim.
  destruct (Hclaim example_getters [empty_actions_prop] Ha)
    as (prop & Hin & _ & m & Hm & _).
  destruct Hin as [<-|[]]. rewrite Hb in Hm. destruct Hm.
Qed.

(** C5, amended: the [action] field of the result is the existing field ORed
    with the presence of an instance of the Actions class in the sequence;
    an Actions model sets it for any declaration it wraps, whatever that
    declaration expands into. *)
Theorem action_flag_follows_actions_instance (G : ClassDecoratorGetters)
  (props before after : list EOProp) (e : DecoratorImportSpecs)
  (decl : EOExpressionProp) (opts : Options) :
  action (getDecoratorsToImportSpecs G props e)
  = action e || existsb (fun prop => instanceof prop EOActionsObjectProp) props
  /\ action (getDecoratorsToImportSpecs G
               (before ++ new_EOProp EOActionsProp decl opts :: after) e)
     = true.
Proof.
  split; [apply aggregate_action|].
  rewrite aggregate_action, existsb_app. cbn.
  rewrite orb_true_r. apply orb_true_r.
Qed.

(** C8: the declaration [actions: { save: function.., cancel: function.. }]
    is classified as an Actions model; its expansion is exactly the two
    methods [save] and [cancel], in that order, each annotated with [action]
    and nothing else; no entry is malformed; and the [action] field of the
    aggregated import specs is true for every sequence that contains the
    model and every existing record. *)
Theorem save_cancel_actions_expand (G : ClassDecoratorGetters)
  (isKnownMacro : Expression -> bool) (opts : Options)
  (existing : DecoratorImportSpecs)
  (params1 : list string) (body1 : string)
  (params2 : list string) (body2 : string)
  (before after : list EOProp) :
  let decl := save_cancel_decl params1 body1 params2 body2 in
  let model := new_EOProp EOActionsProp decl opts in
  spec_makeEOProp isKnownMacro decl tt opts = Return model
  /\ EOActionsProp_build model
     = [ {| cm_key := mkIdentifier "save"; cm_params := params1;
            cm_body := body1; cm_comments := None;
            cm_decorators := [action_decorator] |};
         {| cm_key := mkIdentifier "cancel"; cm_params := params2;
            cm_body := body2; cm_comments := None;
            cm_decorators := [action_decorator] |} ]
  /\ List.length (EOActionsProp_build model) = 2
  /\ Forall (fun m => cm_decorators m = [action_decorator])
       (EOActionsProp_build model)
  /\ EOActionsProp_malformed model = []
  /\ action (getDecoratorsToImportSpecs G [model] existing) = true
  /\ action (getDecoratorsToImportSpecs G (before ++ model :: after) existing)
     = true.
Proof.
  intros decl model.
  assert (Hb : EOActionsProp_build model
     = [ {| cm_key := mkIdentifier "save"; cm_params := params1;
            cm_body := body1; cm_comments := None;
            cm_decorators := [action_decorator] |};
         {| cm_key := mkIdentifier "cancel"; cm_params := params2;
            cm_body := body2; cm_comments := None;
            cm_decorators := [action_decorator] |} ]).
  { unfold EOActionsProp_build, model. rewrite action_entries_new.
    reflexivity. }
  split; [reflexivity|].
  split; [exact Hb|].
  split; [rewrite Hb; reflexivity|].
  split; [rewrite Hb; repeat constructor|].
  split.
  { unfold EOActionsProp_malformed, model. rewrite action_entries_new.
    reflexivity. }
  split.
  - rewrite aggregate_action. cbn. apply orb_true_r.
  - rewrite aggregate_action, existsb_app. cbn.
    rewrite orb_true_r. apply orb_true_r.
Qed.

(** ** The arguments of the [extend] call *)

Lemma parse_loop (args : list Expression) (props : EOCallExpressionProps) :
  fold_left parse_step args props
  = {| eoExpression :=
         match last (List.filter isObjectExpression args) with
         | Some o => Some o
         | None => eoExpression props
         end;
       mixins :=
         mixins props
         ++ List.filter (fun a => negb (isObjectExpression a)) args |}.
Proof.
  revert props. induction args as [|a args IH]; intros props.
  - cbn. rewrite app_nil_r. destruct props; reflexivity.
  - cbn [fold_left List.filter]. rewrite IH. unfold parse_step.
    destruct (isObjectExpression a); cbn [negb eoExpression mixins].
    + rewrite last_cons.
      destruct (last (List.filter isObjectExpression args)); reflexivity.
    + rewrite <- app_assoc. reflexivity.
Qed.

Lemma filter_not_object_idempotent (l : list Expression) :
  List.filter (fun a => negb (isObjectExpression a))
    (List.filter (fun a => negb (isObjectExpression a)) l)
  = List.filter (fun a => negb (isObjectExpression a)) l.
Proof.
  induction l as [|a l IH]; [reflexivity|]. cbn.
  destruct (isObjectExpression a) eqn:E; cbn; [exact IH|].
  rewrite E. cbn. rewrite IH. reflexivity.
Qed.

Lemma filter_object_of_not_object (l : list Expression) :
  List.filter isObjectExpression
    (List.filter (fun a => negb (isObjectExpression a)) l) = [].
Proof.
  induction l as [|a l IH]; [reflexivity|]. cbn.
  destruct (isObjectExpression a) eqn:E; cbn; [exact IH|].
  rewrite E. exact IH.
Qed.

(** C9: the mixins are the arguments that are not object expressions, in
    their original order, and the kept expression is the last argument that
    is an object expression (none when there is none).  In particular, with
    two object expressions among the arguments and none after the second,
    the second is kept and the first appears neither as the kept expression
    nor among the mixins. *)
Theorem parseEmberObjectCallExpression_partition
  (eoCallExpression : ASTPath CallExpressionNode)
  (callee : Expression) (before middle after : list Expression)
  (properties1 properties2 : list EOExpressionProp) :
  (let args := call_arguments (path_value eoCallExpression) in
   let props := parseEmberObjectCallExpression eoCallExpression in
   mixins props = List.filter (fun a => negb (isObjectExpression a)) args
   /\ eoExpression props = last (List.filter isObjectExpression args))
  /\ (let not_object := fun a => negb (isObjectExpression a) in
      parseEmberObjectCallExpression
        (mkASTPath
           {| call_callee := callee;
              call_arguments :=
                before ++ ObjectExpression properties1
                  :: middle ++ ObjectExpression properties2
                  :: List.filter not_object after |})
      = {| eoExpression := Some (ObjectExpression properties2);
           mixins := List.filter not_object before
                     ++ List.filter not_object middle
                     ++ List.filter not_object after |}).
Proof.
  split.
  - cbv zeta. unfold parseEmberObjectCallExpression.
    rewrite parse_loop. cbn [eoExpression mixins app].
    split; [reflexivity|].
    destruct (last _); reflexivity.
  - cbv zeta. unfold parseEmberObjectCallExpression.
    cbn [path_value call_arguments]. rewrite parse_loop.
    cbn [eoExpression mixins app]. f_equal.
    + rewrite List.filter_app. cbn [List.filter].
      change (isObjectExpression (ObjectExpression properties1)) with true.
      cbv iota. rewrite List.filter_app. cbn [List.filter].
      change (isObjectExpression (ObjectExpression properties2)) with true.
      cbv iota. rewrite filter_object_of_not_object.
      rewrite !last_app, last_cons, last_app, last_singleton. reflexivity.
    + rewrite List.filter_app. cbn [List.filter].
      change (isObjectExpression (ObjectExpression properties1)) with true.
      cbn [negb]. rewrite List.filter_app. cbn [List.filter].
      change (isObjectExpression (ObjectExpression properties2)) with true.
      cbn [negb]. rewrite filter_not_object_idempotent. reflexivity.
Qed.

(** ** The transform entry point *)

Lemma ascii_eqb_nat (a b : ascii) :
  Ascii.eqb a b = Nat.eqb (nat_of_ascii a) (nat_of_ascii b).
Proof.
  destruct (Ascii.eqb_spec a b) as [->|Hne].
  - symmetry. apply Nat.eqb_refl.
  - symmetry. apply Nat.eqb_neq. intros Heq. apply Hne.
    rewrite <- (ascii_nat_embedding a), <- (ascii_nat_embedding b), Heq.
    reflexivity.
Qed.

(** Against a character that is not an upper-case letter, comparing the
    lowered character is comparing up to case. *)
Lemma ascii_toLowerCase_eqb (a b : ascii) :
  Nat.leb 65 (nat_of_ascii b) && Nat.leb (nat_of_ascii b) 90 = false ->
  Ascii.eqb (ascii_toLowerCase a) b = ascii_eq_ignore_case a b.
Proof.
  intros Hb. unfold ascii_toLowerCase, ascii_eq_ignore_case.
  rewrite Hb. cbn [andb]. rewrite orb_false_r.
  pose proof (nat_ascii_bounded a) as Ha.
  destruct (Nat.leb 65 (nat_of_ascii a) && Nat.leb (nat_of_ascii a) 90) eqn:Eu.
  - apply andb_true_iff in Eu as [E1 E2].
    apply Nat.leb_le in E1, E2.
    rewrite ascii_eqb_nat, nat_ascii_embedding by lia.
    cbn [andb].
    destruct (Nat.eqb_spec (nat_of_ascii a) (nat_of_ascii b)) as [Heq|_];
      [|reflexivity].
    exfalso. rewrite <- Heq in Hb.
    apply andb_false_iff in Hb as [Hb|Hb]; apply Nat.leb_gt in Hb; lia.
  - cbn [andb]. rewrite orb_false_r. apply ascii_eqb_nat.
Qed.

Lemma toLowerCase_eqb (s t : string) :
  has_no_upper t = true ->
  String.eqb (toLowerCase s) t = eq_ignore_case s t.
Proof.
  revert t. induction s as [|a s IH]; intros [|b t] Ht; try reflexivity.
  cbn in Ht. apply andb_true_iff in Ht as [Hb Ht].
  apply negb_true_iff in Hb.
  cbn [toLowerCase eq_ignore_case String.eqb].
  rewrite <- (ascii_toLowerCase_eqb a b Hb), <- (IH t Ht).
  destruct (Ascii.eqb (ascii_toLowerCase a) b); reflexivity.
Qed.

(** The test of the transformer is the case-insensitive comparison of the
    extension with [.js] and [.ts]. *)
Lemma extension_test (extension : string) :
  includes [".js"; ".ts"] (toLowerCase extension)
  = eq_ignore_case extension ".js" || eq_ignore_case extension ".ts".
Proof.
  unfold includes. cbn [existsb].
  rewrite !toLowerCase_eqb by reflexivity.
  rewrite orb_false_r. reflexivity.
Qed.

(** C10: when the extension of the file path is, up to case, neither [.js]
    nor [.ts], the transformer returns nothing and has no effect at all: the
    source is not parsed, the configuration is not read, nothing is
    rewritten or printed. *)
Theorem transformer_skips_other_extensions
  (extname : string -> string) (Collection UserOptions : Type)
  (j : string -> Collection) (getConfig : unit -> UserOptions)
  (quotes quote : UserOptions -> option string)
  (maybeTransformEmberObjects :
     Collection -> string -> UserOptions -> bool * Collection)
  (toSource : Collection -> option string -> string)
  (file : FileInfo) :
  eq_ignore_case (extname (file_path file)) ".js" = false ->
  eq_ignore_case (extname (file_path file)) ".ts" = false ->
  transformer extname Collection UserOptions j getConfig quotes quote
    maybeTransformEmberObjects toSource file
  = (None, []).
Proof.
  intros Hjs Hts. unfold transformer.
  rewrite extension_test, Hjs, Hts. reflexivity.
Qed.

Lemma transformer_skips_other_extensions_witness :
  eq_ignore_case (posix_extname (file_path readme_file)) ".js" = false
  /\ eq_ignore_case (posix_extname (file_path readme_file)) ".ts" = false
  /\ idle_transformer readme_file = (None, []).
Proof.
  split; [reflexivity|]. split; [reflexivity|].
  exact (transformer_skips_other_extensions posix_extname string unit
           (fun source => source) (fun _ => tt) (fun _ => None)
           (fun _ => None) (fun root _ _ => (false, root))
           (fun root _ => root) readme_file eq_refl eq_refl).
Defined.

(** A script whose extension is written in upper case is parsed. *)
Example transformer_parses_upper_case_js :
  idle_transformer upper_js_file
  = (Some "export default 1;",
     [ Parsed "export default 1;"; ConfigRead;
       Transformed "app/models/user.JS" ]).
Proof. reflexivity. Qed.

(** * Further properties of the embedded code *)

(** ** The base constructor and its getters *)

Lemma includes_In (l : list string) (x : string) :
  includes l x = true <-> In x l.
Proof.
  unfold includes. rewrite existsb_exists. split.
  - intros (y & Hy & E). apply String.eqb_eq in E. subst y. exact Hy.
  - intros H. exists x. split; [exact H|apply String.eqb_refl].
Qed.

Lemma constructor_names (eoProp : EOExpressionProp) (rd : RuntimeData) :
  decoratorNames (AbstractEOProp_constructor eoProp (Some rd))
  = (if truthy_string (type rd)
        && js_in (name (prop_key eoProp)) (nullish (unobservedProperties rd) ∅)
     then ["unobserves"] else [])
    ++ (if truthy_string (type rd)
           && js_in (name (prop_key eoProp)) (nullish (offProperties rd) ∅)
        then ["off"] else []).
Proof.
  unfold decoratorNames, AbstractEOProp_constructor, AbstractEOProp_name.
  cbn.
  destruct (truthy_string (type rd)); cbn [andb]; [|reflexivity].
  destruct (js_in _ (nullish (unobservedProperties rd) ∅));
    destruct (js_in _ (nullish (offProperties rd) ∅));
    destruct (includes (nullish (computedProperties rd) []) _);
    reflexivity.
Qed.

(** X1: the descriptors a constructed model holds are, in this order, at most
    one [unobserves] and at most one [off]: [unobserves] is there exactly
    when the record has a type and the name is found in its unobserved
    properties, [off] exactly when it has a type and the name is found in its
    off properties.  No name occurs twice. *)
Theorem constructor_decoratorNames (eoProp : EOExpressionProp)
  (rd : RuntimeData) :
  let n := name (prop_key eoProp) in
  let this := AbstractEOProp_constructor eoProp (Some rd) in
  decoratorNames this
  = (if truthy_string (type rd)
        && js_in n (nullish (unobservedProperties rd) ∅)
     then ["unobserves"] else [])
    ++ (if truthy_string (type rd) && js_in n (nullish (offProperties rd) ∅)
        then ["off"] else [])
  /\ List.NoDup (decoratorNames this)
  /\ List.length (decoratorNames this) <= 2.
Proof.
  cbv zeta. rewrite constructor_names.
  split; [reflexivity|].
  destruct (truthy_string (type rd)
            && js_in _ (nullish (unobservedProperties rd) ∅));
    destruct (truthy_string (type rd)
              && js_in _ (nullish (offProperties rd) ∅));
    cbn; split; try lia; repeat constructor; cbn; intuition discriminate.
Qed.

(** X2: on a constructed model, [hasUnobservesDecorator] (resp.
    [hasOffDecorator]) is true exactly when the record has a type and the
    name is found in the unobserved (resp. off) properties, and the recorded
    argument list is what the lookup of the name gives in that case and
    stays undefined otherwise. *)
Theorem constructor_decorator_flags (eoProp : EOExpressionProp)
  (rd : RuntimeData) :
  let n := name (prop_key eoProp) in
  let unobserved := nullish (unobservedProperties rd) ∅ in
  let offs := nullish (offProperties rd) ∅ in
  let this := AbstractEOProp_constructor eoProp (Some rd) in
  hasUnobservesDecorator this = truthy_string (type rd) && js_in n unobserved
  /\ hasOffDecorator this = truthy_string (type rd) && js_in n offs
  /\ args_unobserves (decoratorArgs this)
     = (if truthy_string (type rd) && js_in n unobserved
        then js_get unobserved n else None)
  /\ args_off (decoratorArgs this)
     = (if truthy_string (type rd) && js_in n offs
        then js_get offs n else None).
Proof.
  cbv zeta.
  unfold hasUnobservesDecorator, hasOffDecorator, decoratorNames,
    AbstractEOProp_constructor, AbstractEOProp_name.
  cbn.
  destruct (truthy_string (type rd)); cbn [andb]; [|repeat split].
  destruct (js_in _ (nullish (unobservedProperties rd) ∅));
    destruct (js_in _ (nullish (offProperties rd) ∅));
    destruct (includes (nullish (computedProperties rd) []) _);
    cbn; repeat split.
Qed.

(** X3: [isComputed] is [true] or undefined, never [false]: it is [true]
    exactly when the record has a type and lists the name among its computed
    properties.  [isOverridden] is defined exactly when the record has a
    type, and then tells whether the name is among the overridden
    properties ([false] when that list is absent). *)
Theorem constructor_runtime_flags (eoProp : EOExpressionProp)
  (rd : RuntimeData) :
  let n := name (prop_key eoProp) in
  let this := AbstractEOProp_constructor eoProp (Some rd) in
  isComputed this
  = (if truthy_string (type rd)
        && includes (nullish (computedProperties rd) []) n
     then Some true else None)
  /\ isComputed this <> Some false
  /\ isOverridden this
     = (if truthy_string (type rd)
        then Some (includes (nullish (overriddenProperties rd) []) n)
        else None)
  /\ hasRuntimeData this = truthy_string (type rd).
Proof.
  cbv zeta.
  unfold hasRuntimeData, AbstractEOProp_constructor, AbstractEOProp_name.
  cbn.
  destruct (truthy_string (type rd)) eqn:Et; cbn [andb];
    [|repeat split; discriminate].
  destruct (js_in _ (nullish (unobservedProperties rd) ∅));
    destruct (js_in _ (nullish (offProperties rd) ∅));
    destruct (includes (nullish (computedProperties rd) []) _);
    cbn; repeat split; try discriminate; exact Et.
Qed.

(** X4: a record whose [type] is the empty string is treated like no record
    at all: the model is the one built without runtime data, whatever the
    other fields list. *)
Theorem empty_type_is_no_runtime_data (eoProp : EOExpressionProp)
  (rd : RuntimeData) :
  type rd = Some "" ->
  AbstractEOProp_constructor eoProp (Some rd)
  = AbstractEOProp_constructor eoProp None
  /\ hasRuntimeData (AbstractEOProp_constructor eoProp (Some rd)) = false
  /\ hasDecorators (AbstractEOProp_constructor eoProp (Some rd)) = false.
Proof.
  intros Ht.
  assert (H : AbstractEOProp_constructor eoProp (Some rd)
              = AbstractEOProp_init eoProp)
    by (apply constructor_without_type; rewrite Ht; reflexivity).
  rewrite H. repeat split.
Qed.

Lemma empty_type_is_no_runtime_data_witness :
  type rd_empty_type = Some ""
  /\ AbstractEOProp_constructor foo_decl (Some rd_empty_type)
     = AbstractEOProp_constructor foo_decl None.
Proof.
  split; [reflexivity|].
  exact (proj1 (empty_type_is_no_runtime_data foo_decl rd_empty_type eq_refl)).
Defined.

(** X5: the model depends on the record only through its type and through
    what the record says about the declaration's own name: two records with
    the same type that agree on the lookup of the name in the unobserved and
    off properties and on its membership in the computed and overridden
    properties build the same model.  Entries for other names, and the
    [overriddenActions] list, are never consulted. *)
Theorem constructor_depends_on_own_name (eoProp : EOExpressionProp)
  (rd rd' : RuntimeData) :
  let n := name (prop_key eoProp) in
  type rd = type rd' ->
  js_get (nullish (unobservedProperties rd) ∅) n
  = js_get (nullish (unobservedProperties rd') ∅) n ->
  js_get (nullish (offProperties rd) ∅) n
  = js_get (nullish (offProperties rd') ∅) n ->
  includes (nullish (computedProperties rd) []) n
  = includes (nullish (computedProperties rd') []) n ->
  includes (nullish (overriddenProperties rd) []) n
  = includes (nullish (overriddenProperties rd') []) n ->
  AbstractEOProp_constructor eoProp (Some rd)
  = AbstractEOProp_constructor eoProp (Some rd').
Proof.
  cbv zeta. intros Ht Hu Ho Hc Hov.
  unfold AbstractEOProp_constructor, AbstractEOProp_name, js_in. cbn.
  rewrite Ht, Hu, Ho, Hc, Hov. reflexivity.
Qed.

Lemma constructor_depends_on_own_name_witness :
  type rd_unobserved_foo = type rd_unobserved_foo_and_bar
  /\ AbstractEOProp_constructor foo_decl (Some rd_unobserved_foo)
     = AbstractEOProp_constructor foo_decl (Some rd_unobserved_foo_and_bar).
Proof.
  split; [reflexivity|].
  apply (constructor_depends_on_own_name foo_decl rd_unobserved_foo
           rd_unobserved_foo_and_bar);
    vm_compute; reflexivity.
Defined.

Lemma js_in_prototype {A : Type} (n : string) (o : gmap string A) :
  In n Object_prototype_names -> js_in n o = true.
Proof.
  intros Hn. unfold js_in, js_get.
  destruct (o !! n); [reflexivity|].
  apply includes_In in Hn. rewrite Hn. reflexivity.
Qed.

(** X6: the [in] tests also find what a plain object inherits: for a
    declaration named like a member of [Object.prototype] ([toString],
    [constructor], ...), any record that has a type gives the model both the
    [unobserves] and the [off] descriptor, even when the two maps are empty
    or absent. *)
Theorem inherited_names_get_both_descriptors (eoProp : EOExpressionProp)
  (rd : RuntimeData) :
  In (name (prop_key eoProp)) Object_prototype_names ->
  truthy_string (type rd) = true ->
  decoratorNames (AbstractEOProp_constructor eoProp (Some rd))
  = ["unobserves"; "off"]
  /\ hasDecorators (AbstractEOProp_constructor eoProp (Some rd)) = true.
Proof.
  intros Hn Ht.
  pose proof (constructor_names eoProp rd) as Hd.
  rewrite Ht, !js_in_prototype in Hd by exact Hn.
  split; [exact Hd|].
  rewrite constructor_hasDecorators, Ht, !js_in_prototype by exact Hn.
  reflexivity.
Qed.

Lemma inherited_names_get_both_descriptors_witness :
  In (name (prop_key toString_decl)) Object_prototype_names
  /\ truthy_string (type rd_only_type) = true
  /\ decoratorNames (AbstractEOProp_constructor toString_decl
                       (Some rd_only_type))
     = ["unobserves"; "off"].
Proof.
  assert (Hn : In (name (prop_key toString_decl)) Object_prototype_names)
    by (cbn; tauto).
  split; [exact Hn|]. split; [reflexivity|].
  exact (proj1 (inherited_names_get_both_descriptors toString_decl
                  rd_only_type Hn eq_refl)).
Defined.

(** ** The Simple property model, beyond the claims *)

(** X7: [buildDecorators] splits the descriptors of any model in two, keeping
    their order: those that have arguments are rendered, after the decorators
    already on the declaration; those that have none are left out and each
    gives one log line.  So every descriptor is either emitted or logged, and
    a member [build()] returns carries exactly these decorators and comes
    with exactly these log lines. *)
Theorem buildDecorators_partition (this : EOProp) :
  let rendered :=
    omap (fun d => option_map (createDecoratorWithArgs (decorator_name d))
                     (decorator_args d)) (decorators (super this)) in
  let skipped :=
    List.filter (fun d => match decorator_args d with
                          | Some _ => false
                          | None => true
                          end) (decorators (super this)) in
  EOSimpleProp_buildDecorators this
  = (nullish (existingDecorators this) [] ++ rendered,
     map (fun d => ignored_message this (decorator_name d)) skipped)
  /\ (forall member log,
        EOSimpleProp_build this = Return (member, log) ->
        cp_decorators member = nullish (existingDecorators this) [] ++ rendered
        /\ log = map (fun d => ignored_message this (decorator_name d))
                   skipped)
  /\ List.length rendered + List.length skipped
     = List.length (decorators (super this)).
Proof.
  cbv zeta.
  assert (H : EOSimpleProp_buildDecorators this
    = (nullish (existingDecorators this) []
       ++ omap (fun d => option_map
                           (createDecoratorWithArgs (decorator_name d))
                           (decorator_args d)) (decorators (super this)),
       map (fun d => ignored_message this (decorator_name d))
         (List.filter (fun d => match decorator_args d with
                                | Some _ => false
                                | None => true
                                end) (decorators (super this))))).
  { unfold EOSimpleProp_buildDecorators. rewrite buildDecorators_loop.
    reflexivity. }
  split; [exact H|].
  split.
  { intros member log Hb.
    apply simple_build_member in Hb as (_ & _ & _ & _ & Hd & Hl).
    rewrite Hd, Hl, H. split; reflexivity. }
  clear H.
  induction (decorators (super this)) as [|d ds IH]; [reflexivity|].
  cbn [omap list_omap List.filter].
  destruct (decorator_args d); cbn in *; lia.
Qed.

(** A model with one descriptor of each kind: the one with arguments is
    rendered, the other logged. *)
Example buildDecorators_mixed :
  EOSimpleProp_buildDecorators simple_mixed_descriptors
  = ([createDecoratorWithArgs "off" [LString "change"]],
     ["[foo] Ignored decorator unobserves"]).
Proof. reflexivity. Qed.

(** X8: a Simple model has no type error exactly when class fields are
    enabled and its value is not an object or array literal outside
    [queryParams]; there are never more than two. *)
Theorem typeErrors_empty_iff (makeError : EOProp -> string -> string)
  (this : EOProp) :
  (EOSimpleProp_typeErrors makeError this = [] <->
   classFields (options this) = true
   /\ (String.eqb (EOSimpleProp_type this) "ObjectExpression"
       || String.eqb (EOSimpleProp_type this) "ArrayExpression")
      && negb (String.eqb (AbstractEOProp_name (super this)) "queryParams")
      = false)
  /\ List.length (EOSimpleProp_typeErrors makeError this) <= 2.
Proof.
  unfold EOSimpleProp_typeErrors.
  destruct (classFields (options this));
    destruct ((String.eqb (EOSimpleProp_type this) "ObjectExpression"
               || String.eqb (EOSimpleProp_type this) "ArrayExpression")
              && negb (String.eqb (AbstractEOProp_name (super this))
                         "queryParams"));
    cbn; (split; [split; [intros H; try discriminate H; auto
                         |intros [H1 H2]; try discriminate; reflexivity]
                 |lia]).
Qed.

(** An object-valued [queryParams] with class fields enabled is accepted. *)
Example queryParams_object_accepted :
  EOSimpleProp_typeErrors example_makeError simple_queryParams = [].
Proof. reflexivity. Qed.


(** The commented [foo: 1] builds; the same declaration as the parser gives
    it without a comment does not. *)
Example simple_build_commented_and_bare :
  EOSimpleProp_build simple_commented_plain
  = Return ({| cp_key := mkIdentifier "foo";
               cp_value := Some (Literal (LNumber "1"));
               cp_comments := Some ["// the foo"];
               cp_computed := false;
               cp_decorators := [] |}, [])
  /\ EOSimpleProp_build simple_foo_plain
     = Throw "ClassProperty: a field does not match its type".
Proof. split; reflexivity. Qed.

(** ** The decorator-import aggregation, beyond the claims *)

Section AggregatorMoreFacts.

Variable G : ClassDecoratorGetters.

Local Abbreviation aggregate := (getDecoratorsToImportSpecs G).

Lemma aggregate_cons (p : EOProp) (props : list EOProp)
  (e : DecoratorImportSpecs) :
  aggregate (p :: props) e = aggregate props (import_specs_step G e p).
Proof. reflexivity. Qed.

(** X10: the [off] and [unobserves] fields of the result are the existing
    fields ORed with the presence of a model that has the [off], resp. the
    [unobserves], descriptor; the class of the model plays no role. *)
Theorem aggregate_off_unobserves (props : list EOProp)
  (e : DecoratorImportSpecs) :
  off (aggregate props e)
  = off e || existsb (fun prop => hasOffDecorator (super prop)) props
  /\ unobserves (aggregate props e)
     = unobserves e
       || existsb (fun prop => hasUnobservesDecorator (super prop)) props.
Proof.
  revert e. induction props as [|p props IH]; intros e.
  - cbn. rewrite !orb_false_r. split; reflexivity.
  - rewrite aggregate_cons. destruct (IH (import_specs_step G e p)) as [Ho Hu].
    rewrite Ho, Hu. cbn [import_specs_step off unobserves existsb].
    rewrite !orb_assoc. split; reflexivity.
Qed.

(** X11: when no model of the sequence is an instance of the class-decorator
    class, the six class-level fields of the result are those of the
    existing record, whatever the capability getters answer. *)
Theorem aggregate_without_class_decorators (props : list EOProp)
  (e : DecoratorImportSpecs) :
  Forall (fun prop => instanceof prop EOClassDecoratorProp = false) props ->
  classNames (aggregate props e) = classNames e
  /\ classNameBindings (aggregate props e) = classNameBindings e
  /\ attributeBindings (aggregate props e) = attributeBindings e
  /\ layout (aggregate props e) = layout e
  /\ templateLayout (aggregate props e) = templateLayout e
  /\ tagName (aggregate props e) = tagName e.
Proof.
  intros H. revert e. induction H as [|p props Hp _ IH]; intros e.
  - repeat split.
  - rewrite aggregate_cons.
    destruct (IH (import_specs_step G e p)) as (H1 & H2 & H3 & H4 & H5 & H6).
    rewrite H1, H2, H3, H4, H5, H6. cbn. rewrite Hp. cbn.
    rewrite !orb_false_r. repeat split.
Qed.

(** X12: models that are neither Actions nor class-decorator models and were
    built without runtime data contribute nothing: the result is the
    existing record. *)
Theorem aggregate_plain_models (decls : list (EOPropClass * EOExpressionProp))
  (opts : Options) (e : DecoratorImportSpecs) :
  runtimeData opts = None ->
  Forall (fun cd => fst cd <> EOActionsProp /\ fst cd <> EOClassDecorator)
    decls ->
  aggregate (map (fun cd => new_EOProp (fst cd) (snd cd) opts) decls) e = e.
Proof.
  intros Hrd H. revert e. induction H as [|[C d] decls [Ha Hc] _ IH]; intros e.
  - reflexivity.
  - cbn [map]. rewrite aggregate_cons, IH.
    cbn [fst snd] in *. unfold import_specs_step, instanceof, new_EOProp.
    cbn [class_of super]. rewrite Hrd. cbn.
    destruct C; try contradiction; destruct e; cbn;
      rewrite ?orb_false_r; reflexivity.
Qed.

End AggregatorMoreFacts.

Lemma aggregate_without_class_decorators_witness :
  Forall (fun prop => instanceof prop EOClassDecoratorProp = false)
    [empty_actions_prop; simple_foo_unobserved]
  /\ tagName (getDecoratorsToImportSpecs example_getters
                [empty_actions_prop; simple_foo_unobserved] no_specs)
     = false.
Proof.
  assert (H : Forall (fun prop => instanceof prop EOClassDecoratorProp = false)
                [empty_actions_prop; simple_foo_unobserved])
    by (repeat constructor).
  split; [exact H|].
  destruct (aggregate_without_class_decorators example_getters
              [empty_actions_prop; simple_foo_unobserved] no_specs H)
    as (_ & _ & _ & _ & _ & Ht).
  exact Ht.
Defined.

Lemma aggregate_plain_models_witness :
  runtimeData {| classFields := true; runtimeData := None |} = None
  /\ getDecoratorsToImportSpecs example_getters
       [simple_foo_plain;
        new_EOProp EOMethodProp method_decl
          {| classFields := true; runtimeData := None |}]
       no_specs
     = no_specs.
Proof.
  split; [reflexivity|].
  refine (aggregate_plain_models example_getters
            [(EOSimpleProp, foo_decl); (EOMethodProp, method_decl)]
            {| classFields := true; runtimeData := None |} no_specs
            eq_refl _).
  repeat constructor; discriminate.
Defined.

(** ** The arguments of the [extend] call, beyond the claims *)

Lemma filter_all_not_object (l : list Expression) :
  forallb (fun a => negb (isObjectExpression a)) l = true ->
  List.filter (fun a => negb (isObjectExpression a)) l = l
  /\ List.filter isObjectExpression l = [].
Proof.
  induction l as [|a l IH]; [split; reflexivity|].
  cbn. intros H. apply andb_true_iff in H as [Ha Hl].
  destruct (IH Hl) as [H1 H2]. rewrite Ha.
  apply negb_true_iff in Ha. rewrite Ha, H1, H2. split; reflexivity.
Qed.

(** X13: the kept expression is null exactly when no argument is an object
    expression, and then the mixins are all the arguments; the mixins never
    contain an object expression; a kept expression is an object expression
    taken from the arguments; and the mixins together with the object
    expressions account for every argument. *)
Theorem parse_kept_and_mixins (eoCallExpression : ASTPath CallExpressionNode) :
  let args := call_arguments (path_value eoCallExpression) in
  let props := parseEmberObjectCallExpression eoCallExpression in
  (eoExpression props = None <->
   forallb (fun a => negb (isObjectExpression a)) args = true)
  /\ (forallb (fun a => negb (isObjectExpression a)) args = true ->
      mixins props = args)
  /\ Forall (fun a => isObjectExpression a = false) (mixins props)
  /\ (forall o, eoExpression props = Some o ->
                isObjectExpression o = true /\ In o args)
  /\ List.length (mixins props)
     + List.length (List.filter isObjectExpression args)
     = List.length args.
Proof.
  cbv zeta. unfold parseEmberObjectCallExpression. rewrite parse_loop.
  cbn [eoExpression mixins app].
  set (args := call_arguments (path_value eoCallExpression)).
  assert (Hlast : match last (List.filter isObjectExpression args) with
                  | Some o => Some o
                  | None => None
                  end = last (List.filter isObjectExpression args))
    by (destruct (last _); reflexivity).
  rewrite Hlast.
  split; [|split; [|split; [|split]]].
  - rewrite last_None. split.
    + intros H. apply forallb_forall. intros a Ha.
      destruct (isObjectExpression a) eqn:E; [|reflexivity].
      assert (Hin : In a (List.filter isObjectExpression args))
        by (apply List.filter_In; auto).
      rewrite H in Hin. destruct Hin.
    + intros H. apply (filter_all_not_object args H).
  - intros H. apply (filter_all_not_object args H).
  - apply List.Forall_forall. intros a Ha.
    apply List.filter_In in Ha as [_ Ha]. apply negb_true_iff in Ha. exact Ha.
  - intros o Ho. apply last_Some in Ho as [l' Hl'].
    assert (Hin : In o (List.filter isObjectExpression args))
      by (rewrite Hl'; apply in_or_app; right; left; reflexivity).
    apply List.filter_In in Hin as [Hin Hobj]. split; assumption.
  - clear Hlast. clearbody args.
    induction args as [|a l IH]; [reflexivity|].
    cbn. destruct (isObjectExpression a); cbn in *; lia.
Qed.

(** ** The transform entry point, beyond the claims *)

Section TransformerFacts.

Variable extname : string -> string.
Variable Collection : Type.
Variable UserOptions : Type.
Variable j : string -> Collection.
Variable getConfig : unit -> UserOptions.
Variable quotes : UserOptions -> option string.
Variable quote : UserOptions -> option string.
Variable maybeTransformEmberObjects :
  Collection -> string -> UserOptions -> bool * Collection.
Variable toSource : Collection -> option string -> string.

Local Abbreviation transform :=
  (transformer extname Collection UserOptions j getConfig quotes quote
     maybeTransformEmberObjects toSource).

Lemma transformer_accepts (file : FileInfo) :
  eq_ignore_case (extname (file_path file)) ".js" = true
  \/ eq_ignore_case (extname (file_path file)) ".ts" = true ->
  negb (includes [".js"; ".ts"] (toLowerCase (extname (file_path file))))
  = false.
Proof.
  intros H. rewrite extension_test. apply negb_false_iff.
  apply orb_true_iff. exact H.
Qed.

(** X14: for a [.js] or [.ts] file (in any case) in which nothing was
    replaced, the transformer returns the source it was given, unchanged,
    after parsing it, reading the configuration and running the rewriting;
    the printer is not called. *)
Theorem transformer_keeps_source (file : FileInfo) :
  eq_ignore_case (extname (file_path file)) ".js" = true
  \/ eq_ignore_case (extname (file_path file)) ".ts" = true ->
  fst (maybeTransformEmberObjects (j (file_source file)) (file_path file)
         (getConfig tt)) = false ->
  transform file
  = (Some (file_source file),
     [ Parsed (file_source file); ConfigRead; Transformed (file_path file) ]).
Proof.
  intros Hext Hrep. unfold transformer.
  rewrite (transformer_accepts file Hext).
  destruct (maybeTransformEmberObjects _ _ _) as [replaced root].
  cbn in Hrep. subst replaced. reflexivity.
Qed.

(** X15: for a [.js] or [.ts] file in which something was replaced, the
    transformer returns the printed form of the rewritten collection, and
    the quote style handed to the printer is the [quotes] option when it is
    set and the [quote] option otherwise. *)
Theorem transformer_prints_replaced (file : FileInfo) (root : Collection) :
  eq_ignore_case (extname (file_path file)) ".js" = true
  \/ eq_ignore_case (extname (file_path file)) ".ts" = true ->
  maybeTransformEmberObjects (j (file_source file)) (file_path file)
    (getConfig tt) = (true, root) ->
  transform file
  = (Some (toSource root
             match quotes (getConfig tt) with
             | Some q => Some q
             | None => quote (getConfig tt)
             end),
     [ Parsed (file_source file); ConfigRead; Transformed (file_path file);
       Printed ]).
Proof.
  intros Hext Hrep. unfold transformer.
  rewrite (transformer_accepts file Hext), Hrep. reflexivity.
Qed.

(** X16: the transformer returns undefined only for the files it skips: the
    result is undefined exactly when the extension is, up to case, neither
    [.js] nor [.ts], and exactly then it has no effect. *)
Theorem transformer_undefined_iff_skipped (file : FileInfo) :
  (fst (transform file) = None <->
   eq_ignore_case (extname (file_path file)) ".js" = false
   /\ eq_ignore_case (extname (file_path file)) ".ts" = false)
  /\ (snd (transform file) = [] <->
      eq_ignore_case (extname (file_path file)) ".js" = false
      /\ eq_ignore_case (extname (file_path file)) ".ts" = false).
Proof.
  unfold transformer. rewrite extension_test.
  destruct (eq_ignore_case (extname (file_path file)) ".js");
    destruct (eq_ignore_case (extname (file_path file)) ".ts");
    cbn [orb negb];
    try (destruct (maybeTransformEmberObjects _ _ _) as [[] root]);
    cbn; repeat split; intros; try discriminate; try tauto;
    match goal with
    | H : _ /\ _ |- _ => destruct H; discriminate
    end.
Qed.

End TransformerFacts.

Lemma transformer_keeps_source_witness :
  (eq_ignore_case (posix_extname (file_path upper_js_file)) ".js" = true
   \/ eq_ignore_case (posix_extname (file_path upper_js_file)) ".ts" = true)
  /\ idle_transformer upper_js_file
     = (Some "export default 1;",
        [ Parsed "export default 1;"; ConfigRead;
          Transformed "app/models/user.JS" ]).
Proof.
  split; [left; reflexivity|].
  exact (transformer_keeps_source posix_extname string unit
           (fun source => source) (fun _ => tt) (fun _ => None)
           (fun _ => None) (fun root _ _ => (false, root))
           (fun root _ => root) upper_js_file
           (or_introl eq_refl) eq_refl).
Defined.

Lemma transformer_prints_replaced_witness :
  (eq_ignore_case (posix_extname (file_path lower_ts_file)) ".js" = true
   \/ eq_ignore_case (posix_extname (file_path lower_ts_file)) ".ts" = true)
  /\ rewriting_transformer (Some "single") (Some "double") lower_ts_file
     = (Some "single:class let x",
        [ Parsed "let x"; ConfigRead; Transformed "app/a.ts"; Printed ])
  /\ rewriting_transformer None (Some "double") lower_ts_file
     = (Some "double:class let x",
        [ Parsed "let x"; ConfigRead; Transformed "app/a.ts"; Printed ]).
Proof.
  split; [right; reflexivity|]. split.
  - exact (transformer_prints_replaced posix_extname string unit
             (fun source => source) (fun _ => tt) (fun _ => Some "single")
             (fun _ => Some "double") (fun root _ _ => (true, "class " +:+ root))
             (fun root q => nullish q "default" +:+ ":" +:+ root)
             lower_ts_file "class let x" (or_intror eq_refl) eq_refl).
  - exact (transformer_prints_replaced posix_extname string unit
             (fun source => source) (fun _ => tt) (fun _ => None)
             (fun _ => Some "double") (fun root _ _ => (true, "class " +:+ root))
             (fun root q => nullish q "default" +:+ ":" +:+ root)
             lower_ts_file "class let x" (or_intror eq_refl) eq_refl).
Defined.

Lemma lower_is_dot (c : ascii) :
  ascii_toLowerCase c = "."%char -> c = "."%char.
Proof.
  destruct c as [[] [] [] [] [] [] [] []]; intros H; vm_compute in H;
    try discriminate H; reflexivity.
Qed.

Lemma lower_is_j (c : ascii) :
  ascii_toLowerCase c = "j"%char -> c = "j"%char \/ c = "J"%char.
Proof.
  destruct c as [[] [] [] [] [] [] [] []]; intros H; vm_compute in H;
    try discriminate H; auto.
Qed.

Lemma lower_is_s (c : ascii) :
  ascii_toLowerCase c = "s"%char -> c = "s"%char \/ c = "S"%char.
Proof.
  destruct c as [[] [] [] [] [] [] [] []]; intros H; vm_compute in H;
    try discriminate H; auto.
Qed.

Lemma lower_is_t (c : ascii) :
  ascii_toLowerCase c = "t"%char -> c = "t"%char \/ c = "T"%char.
Proof.
  destruct c as [[] [] [] [] [] [] [] []]; intros H; vm_compute in H;
    try discriminate H; auto.
Qed.

(** X17: the extensions the transformer accepts are exactly the eight
    spellings of [.js] and [.ts] in lower and upper case. *)
Theorem accepted_extension_variants (extension : string) :
  includes [".js"; ".ts"] (toLowerCase extension) = true
  <-> In extension accepted_extensions.
Proof.
  split.
  - unfold includes. cbn [existsb]. rewrite orb_false_r.
    intros H. apply orb_true_iff in H.
    destruct H as [H|H]; apply String.eqb_eq in H;
      destruct extension as [|c1 [|c2 [|c3 [|c4 rest]]]];
      cbn in H; try discriminate H;
      injection H as H1 H2 H3.
    + apply lower_is_dot in H1. apply lower_is_j in H2.
      apply lower_is_s in H3. subst c1.
      destruct H2 as [-> | ->]; destruct H3 as [-> | ->]; cbn; tauto.
    + apply lower_is_dot in H1. apply lower_is_t in H2.
      apply lower_is_s in H3. subst c1.
      destruct H2 as [-> | ->]; destruct H3 as [-> | ->]; cbn; tauto.
  - intros H. cbn in H.
    repeat (destruct H as [<-|H]; [reflexivity|]). destruct H.
Qed.

(** ** The classifier, beyond the claims *)

Section ClassifierMoreFacts.

Variable DecoratorImportInfoMap : Type.
Variable isEOPropertyWithCallExpression : EOExpressionProp -> bool.
Variable isEOMethod : EOExpressionProp -> bool.
Variable isEOPropertyWithFunctionExpression : EOExpressionProp -> bool.
Variable isEOPropertyForClassDecorator : EOExpressionProp -> bool.
Variable isEOPropertyForActionsObject : EOExpressionProp -> bool.
Variable isEOPropertySimple : EOExpressionProp -> bool.
Variable makeEOCallExpressionProp :
  EOExpressionProp -> DecoratorImportInfoMap -> Options -> Completion EOProp.

Local Abbreviation classify :=
  (makeEOProp DecoratorImportInfoMap
     isEOPropertyWithCallExpression isEOMethod
     isEOPropertyWithFunctionExpression isEOPropertyForClassDecorator
     isEOPropertyForActionsObject isEOPropertySimple
     makeEOCallExpressionProp).

Local Abbreviation fallthrough :=
  (falls_through
     isEOPropertyWithCallExpression isEOMethod
     isEOPropertyWithFunctionExpression isEOPropertyForClassDecorator
     isEOPropertyForActionsObject).

(** X18: the classifier fails in exactly two ways: on a call expression,
    when the disambiguator it delegates to fails; and on a declaration that
    none of the five tests takes, when it is not a simple property either,
    with the error of the assertion.  A declaration taken by the method,
    function-expression, class-decorator or actions test never fails. *)
Theorem makeEOProp_failure_modes (eoProp : EOExpressionProp)
  (infos : DecoratorImportInfoMap) (opts : Options) :
  ((exists e, classify eoProp infos opts = Throw e) <->
   (isEOPropertyWithCallExpression eoProp = true
    /\ exists e, makeEOCallExpressionProp eoProp infos opts = Throw e)
   \/ (fallthrough eoProp = true /\ isEOPropertySimple eoProp = false))
  /\ (fallthrough eoProp = true -> isEOPropertySimple eoProp = false ->
      classify eoProp infos opts = Throw "Assertion Error").
Proof.
  split.
  - split.
    + intros [e He]. apply makeEOProp_throws in He.
      destruct He as [[Hc Hm]|(Hf & Hs & _)]; [left|right]; eauto.
    + intros [(Hc & e & He)|[Hf Hs]].
      * exists e. apply makeEOProp_throws. left. auto.
      * exists "Assertion Error". apply makeEOProp_throws. right. auto.
  - intros Hf Hs. apply makeEOProp_throws. right. auto.
Qed.

(** X19: the first test that holds decides.  For a declaration that is not a
    call expression and that the classifier accepts, the model is a Method
    model exactly when the method test holds, a FunctionExpression model
    exactly when the method test fails and the function-expression test
    holds, and so on down to the Simple model; it is never one of the three
    call-expression classes, and it wraps the declaration and the options it
    was given. *)
Theorem makeEOProp_first_match (eoProp : EOExpressionProp)
  (infos : DecoratorImportInfoMap) (opts : Options) (v : EOProp) :
  isEOPropertyWithCallExpression eoProp = false ->
  classify eoProp infos opts = Return v ->
  (class_of v = EOMethodProp <-> isEOMethod eoProp = true)
  /\ (class_of v = EOFunctionExpressionProp <->
      isEOMethod eoProp = false
      /\ isEOPropertyWithFunctionExpression eoProp = true)
  /\ (class_of v = EOClassDecorator <->
      isEOMethod eoProp = false
      /\ isEOPropertyWithFunctionExpression eoProp = false
      /\ isEOPropertyForClassDecorator eoProp = true)
  /\ (class_of v = EOActionsProp <->
      isEOMethod eoProp = false
      /\ isEOPropertyWithFunctionExpression eoProp = false
      /\ isEOPropertyForClassDecorator eoProp = false
      /\ isEOPropertyForActionsObject eoProp = true)
  /\ (class_of v = EOSimpleProp <-> fallthrough eoProp = true)
  /\ class_of v <> EOComputedFunctionExpressionProp
  /\ class_of v <> EOComputedObjectExpressionProp
  /\ class_of v <> EODecoratedProp
  /\ rawProp v = eoProp
  /\ options v = opts.
Proof.
  intros Hc Hv. unfold makeEOProp, falls_through in *. rewrite Hc in *.
  cbn [negb andb].
  assert (Hraw : forall C, rawProp (new_EOProp C eoProp opts) = eoProp).
  { intros C. unfold rawProp, new_EOProp. cbn [super].
    apply constructor_keeps_prop. }
  destruct (isEOMethod eoProp);
    [|destruct (isEOPropertyWithFunctionExpression eoProp);
      [|destruct (isEOPropertyForClassDecorator eoProp);
        [|destruct (isEOPropertyForActionsObject eoProp);
          [|destruct (isEOPropertySimple eoProp); [|discriminate Hv]]]]];
    cbn in Hv; injection Hv as <-; rewrite Hraw; cbn [class_of options new_EOProp];
    repeat split; intros; try discriminate; try reflexivity;
    repeat match goal with
           | H : _ /\ _ |- _ => destruct H
           end; discriminate.
Qed.

End ClassifierMoreFacts.

(** [actions: function () {}] is a plain function expression to the decision
    table, so the function-expression test decides before the actions test. *)
Lemma makeEOProp_first_match_witness :
  spec_isEOPropertyWithCallExpression
    (EOProperty (mkIdentifier "actions") (FunctionExpression [] "{}")
       None None None) = false
  /\ class_of
       (new_EOProp EOFunctionExpressionProp
          (EOProperty (mkIdentifier "actions") (FunctionExpression [] "{}")
             None None None)
          {| classFields := true; runtimeData := None |})
     <> EOActionsProp.
Proof.
  split; [reflexivity|].
  intros Habs.
  destruct (makeEOProp_first_match unit
              spec_isEOPropertyWithCallExpression spec_isEOMethod
              spec_isEOPropertyWithFunctionExpression
              spec_isEOPropertyForClassDecorator
              spec_isEOPropertyForActionsObject spec_isEOPropertySimple
              (spec_makeEOCallExpressionProp (fun _ => false))
              (EOProperty (mkIdentifier "actions") (FunctionExpression [] "{}")
                 None None None)
              tt {| classFields := true; runtimeData := None |}
              (new_EOProp EOFunctionExpressionProp
                 (EOProperty (mkIdentifier "actions")
                    (FunctionExpression [] "{}") None None None)
                 {| classFields := true; runtimeData := None |})
              eq_refl eq_refl)
    as (_ & _ & _ & Hact & _).
  apply Hact in Habs. destruct Habs as (_ & Hf & _). discriminate Hf.
Defined.

(** ** getEmberObjectProps *)

Lemma map_completion_returns {A B : Type} (f : A -> Completion B)
  (l : list A) (r : list B) :
  map_completion f l = Return r <-> Forall2 (fun x y => f x = Return y) l r.
Proof.
  revert r. induction l as [|x l IH]; intros r.
  - cbn. split.
    + intros H. injection H as <-. constructor.
    + intros H. inversion H. reflexivity.
  - cbn. split.
    + intros H. destruct (f x) as [y|e] eqn:Ex; cbn in H; [|discriminate].
      destruct (map_completion f l) as [ys|e] eqn:El; cbn in H; [|discriminate].
      injection H as <-. constructor; [exact Ex|]. apply IH. reflexivity.
    + intros H. inversion H as [|x' y l' ys Hxy Hrest]; subst.
      rewrite Hxy. cbn. apply IH in Hrest. rewrite Hrest. reflexivity.
Qed.

Lemma map_completion_throws {A B : Type} (f : A -> Completion B)
  (l : list A) (e : string) :
  map_completion f l = Throw e <->
  exists before x after,
    l = before ++ x :: after
    /\ Forall (fun y => exists z, f y = Return z) before
    /\ f x = Throw e.
Proof.
  induction l as [|x l IH].
  - cbn. split; [discriminate|].
    intros (before & y & after & H & _). destruct before; discriminate H.
  - cbn. split.
    + intros H. destruct (f x) as [y|e'] eqn:Ex; cbn in H.
      * destruct (map_completion f l) as [ys|e''] eqn:El; cbn in H;
          [discriminate|]. injection H as ->.
        destruct (proj1 IH eq_refl) as (before & z & after & -> & Hb & Hz).
        exists (x :: before), z, after.
        split; [reflexivity|]. split; [|exact Hz].
        constructor; [eauto|exact Hb].
      * injection H as ->. exists [], x, l.
        split; [reflexivity|]. split; [constructor|exact Ex].
    + intros (before & z & after & Hl & Hb & Hz).
      destruct before as [|b before]; cbn in Hl; injection Hl as -> ->.
      * rewrite Hz. reflexivity.
      * inversion Hb as [|? ? [y Hy] Hb']; subst. rewrite Hy. cbn.
        assert (Ht : map_completion f (before ++ z :: after) = Throw e)
          by (apply IH; eauto 6).
        rewrite Ht. reflexivity.
Qed.

Section EmberObjectPropsFacts.

Variable DecoratorImportInfoMap : Type.
Variable verified_isPropertyNode :
  EOExpressionProp -> Completion EOExpressionProp.
Variable makeEOProp_with :
  EOExpressionProp -> option RuntimeData -> DecoratorImportInfoMap ->
  Completion EOProp.

Local Abbreviation props_of :=
  (getEmberObjectProps DecoratorImportInfoMap verified_isPropertyNode
     makeEOProp_with).

Local Abbreviation instance_of :=
  (make_instance_prop DecoratorImportInfoMap verified_isPropertyNode
     makeEOProp_with).

(** X20: [getEmberObjectProps] returns exactly when every property of the
    object expression passes the check and is classified; the models then
    correspond one to one, in source order, to the properties, so there are
    as many models as properties.  A null expression gives no model. *)
Theorem getEmberObjectProps_returns (eoExpression : option Expression)
  (infos : DecoratorImportInfoMap) (rd : option RuntimeData)
  (result : EOProps) :
  (props_of eoExpression infos rd = Return result <->
   Forall2 (fun objProp model => instance_of rd infos objProp = Return model)
     (properties_of eoExpression) (instanceProps result))
  /\ (props_of eoExpression infos rd = Return result ->
      List.length (instanceProps result)
      = List.length (properties_of eoExpression))
  /\ props_of None infos rd = Return {| instanceProps := [] |}.
Proof.
  assert (Hiff : props_of eoExpression infos rd = Return result <->
     Forall2 (fun objProp model => instance_of rd infos objProp = Return model)
       (properties_of eoExpression) (instanceProps result)).
  { unfold getEmberObjectProps. rewrite <- map_completion_returns.
    destruct (map_completion _ _) as [ps|e]; cbn.
    - split.
      + intros H. injection H as <-. reflexivity.
      + intros H. injection H as ->. destruct result; reflexivity.
    - split; discriminate. }
  split; [exact Hiff|]. split; [|reflexivity].
  intros H. apply Hiff in H. symmetry. exact (Forall2_length _ _ _ H).
Qed.

(** X21: [getEmberObjectProps] throws exactly the error of the first
    property, in source order, that fails the check or the classification;
    the properties after it are not looked at. *)
Theorem getEmberObjectProps_throws (eoExpression : option Expression)
  (infos : DecoratorImportInfoMap) (rd : option RuntimeData) (e : string) :
  props_of eoExpression infos rd = Throw e <->
  exists before objProp after,
    properties_of eoExpression = before ++ objProp :: after
    /\ Forall (fun p => exists model, instance_of rd infos p = Return model)
         before
    /\ (verified_isPropertyNode objProp = Throw e
        \/ exists verifiedProp,
             verified_isPropertyNode objProp = Return verifiedProp
             /\ makeEOProp_with verifiedProp rd infos = Throw e).
Proof.
  unfold getEmberObjectProps.
  assert (Hone : forall p,
    instance_of rd infos p = Throw e <->
    (verified_isPropertyNode p = Throw e
     \/ exists q, verified_isPropertyNode p = Return q
                  /\ makeEOProp_with q rd infos = Throw e)).
  { intros p. unfold make_instance_prop.
    destruct (verified_isPropertyNode p) as [q|e'] eqn:Ev; cbn.
    - split.
      + intros H. right. exists q. auto.
      + intros [H|(q' & Hq & H)]; [discriminate|].
        injection Hq as <-. exact H.
    - split.
      + intros H. left. injection H as ->. reflexivity.
      + intros [H|(q' & Hq & _)]; [|discriminate].
        injection H as ->. reflexivity. }
  split.
  - intros H.
    destruct (map_completion _ _) as [ps|e'] eqn:Em; cbn in H; [discriminate|].
    injection H as ->. apply map_completion_throws in Em.
    destruct Em as (before & p & after & Hl & Hb & Hp).
    exists before, p, after. split; [exact Hl|]. split; [exact Hb|].
    apply Hone. exact Hp.
  - intros (before & p & after & Hl & Hb & Hp).
    apply Hone in Hp.
    assert (Em : map_completion (instance_of rd infos)
                   (properties_of eoExpression) = Throw e)
      by (apply map_completion_throws; eauto 6).
    rewrite Em. reflexivity.
Qed.

End EmberObjectPropsFacts.

(** Two properties, both classified, in order. *)
Example getEmberObjectProps_two :
  getEmberObjectProps unit accept_property example_makeEOProp_with
    (Some (ObjectExpression [foo_decl; method_decl])) tt None
  = Return {| instanceProps :=
                [ simple_foo_plain;
                  new_EOProp EOMethodProp method_decl
                    {| classFields := true; runtimeData := None |} ] |}.
Proof. reflexivity. Qed.

(** The method is rejected by the check: its error comes out, and the
    property after it plays no role. *)
Example getEmberObjectProps_rejected :
  getEmberObjectProps unit reject_methods example_makeEOProp_with
    (Some (ObjectExpression [foo_decl; method_decl; config_decl])) tt None
  = Throw "not a property".
Proof. reflexivity. Qed.

(** ** getClassName *)

Section ClassNameFacts.

Variable getClosestVariableDeclaration :
  ASTPath CallExpressionNode -> option (ASTPath VariableDeclaration).
Variable camelCase : string -> string.
Variable basename : string -> option string -> string.
Variable dirname : string -> string.
Variable capitalizeFirstLetter : string -> string.

Local Abbreviation class_name :=
  (getClassName getClosestVariableDeclaration camelCase basename dirname
     capitalizeFirstLetter).

(** X22: when a variable declaration encloses the call, the class name is
    decided by that declaration alone: it is the name of the identifier the
    first declarator binds, and the function throws when the first declarator
    binds a pattern or is not a declarator; the file path and the type are
    never looked at. *)
Theorem getClassName_enclosing_declaration
  (eoCallExpression : ASTPath CallExpressionNode)
  (varDeclaration : ASTPath VariableDeclaration)
  (filePath type : string) :
  getClosestVariableDeclaration eoCallExpression = Some varDeclaration ->
  (forall filePath' type',
     class_name eoCallExpression filePath type
     = class_name eoCallExpression filePath' type')
  /\ (forall id,
        first_declarator (path_value varDeclaration)
        = VariableDeclarator (IdentifierPattern id) ->
        class_name eoCallExpression filePath type = Return (name id))
  /\ (forall t,
        first_declarator (path_value varDeclaration)
        = VariableDeclarator (OtherPattern t) ->
        class_name eoCallExpression filePath type
        = Throw "expected firstDeclarator.id to be an Identifier")
  /\ (forall t,
        first_declarator (path_value varDeclaration) = OtherDeclarator t ->
        class_name eoCallExpression filePath type
        = Throw "expected firstDeclarator to be a VariableDeclarator").
Proof.
  intros Hc. unfold getClassName. rewrite Hc.
  split; [reflexivity|].
  split; [intros id ->; reflexivity|].
  split; intros t ->; reflexivity.
Qed.

(** X23: without an enclosing declaration the function always returns.  The
    name is built from the file name, or from the directory name when the
    capitalised type is the name the file gives; it is that name alone for
    the types [Component], [Helper] and [EmberObject], and that name
    followed by the capitalised type for every other type, the test being
    made on the type as given, not on its capitalised form. *)
Theorem getClassName_from_file_path
  (eoCallExpression : ASTPath CallExpressionNode) (filePath type : string) :
  getClosestVariableDeclaration eoCallExpression = None ->
  let fromFile :=
    capitalizeFirstLetter (camelCase (basename filePath (Some "js"))) in
  let fromDirectory :=
    capitalizeFirstLetter (camelCase (basename (dirname filePath) None)) in
  let base :=
    if String.eqb (capitalizeFirstLetter type) fromFile then fromDirectory
    else fromFile in
  (In type ["Component"; "Helper"; "EmberObject"] ->
   class_name eoCallExpression filePath type = Return base)
  /\ (~ In type ["Component"; "Helper"; "EmberObject"] ->
      class_name eoCallExpression filePath type
      = Return (base +:+ capitalizeFirstLetter type))
  /\ exists className,
       class_name eoCallExpression filePath type = Return className.
Proof.
  intros Hc. cbv zeta. unfold getClassName. rewrite Hc.
  destruct (includes ["Component"; "Helper"; "EmberObject"] type) eqn:Ei.
  - apply includes_In in Ei. cbn [negb].
    split; [reflexivity|]. split; [contradiction|eauto].
  - cbn [negb]. split; [|split; [reflexivity|eauto]].
    intros Hi. apply includes_In in Hi. rewrite Hi in Ei. discriminate.
Qed.

End ClassNameFacts.

Lemma getClassName_enclosing_declaration_witness :
  getClassName (fun _ => Some declaration_of_Foo) keep keep_base keep keep
    call_path "app/components/my-widget.js" "Component"
  = Return "Foo"
  /\ getClassName (fun _ => Some destructuring_declaration) keep keep_base
       keep keep call_path "app/components/my-widget.js" "Component"
     = Throw "expected firstDeclarator.id to be an Identifier".
Proof.
  split.
  - exact (proj1 (proj2 (getClassName_enclosing_declaration
                           (fun _ => Some declaration_of_Foo) keep keep_base
                           keep keep call_path declaration_of_Foo
                           "app/components/my-widget.js" "Component" eq_refl))
             (mkIdentifier "Foo") eq_refl).
  - exact (proj1 (proj2 (proj2 (getClassName_enclosing_declaration
                           (fun _ => Some destructuring_declaration) keep
                           keep_base keep keep call_path
                           destructuring_declaration
                           "app/components/my-widget.js" "Component" eq_refl)))
             "ObjectPattern" eq_refl).
Defined.

Lemma getClassName_from_file_path_witness :
  getClassName (fun _ => None) keep keep_base keep keep call_path
    "Widget" "Component"
  = Return "Widget"
  /\ getClassName (fun _ => None) keep keep_base keep keep call_path
       "Widget" "component"
     = Return "Widgetcomponent".
Proof.
  split.
  - refine (proj1 (getClassName_from_file_path (fun _ => None) keep keep_base
                     keep keep call_path "Widget" "Component" eq_refl) _).
    cbn. tauto.
  - refine (proj1 (proj2 (getClassName_from_file_path (fun _ => None) keep
                            keep_base keep keep call_path "Widget" "component"
                            eq_refl)) _).
    cbn. intros [H|[H|[H|[]]]]; discriminate H.
Defined.
